(** * Baseball Catcher: the simulation core, embedded and verified

    A shallow embedding of [game/objects/sprite.js], [game/characters/ball.js],
    [game/characters/player.js], [game/helpers/utils.js] and the simulation
    part of [game/main.js].

    Numbers.  Every JavaScript number is a value of [num]: a rational, one of
    the two infinities, or NaN.  Arithmetic on finite values is exact, so
    rounding, overflow and the sign of zero are idealised away; the way NaN
    and the infinities flow through [+ - * /] and make every comparison
    false is kept, because the code relies on it.  [undefined] used as a
    number behaves like NaN in every operation this code applies to it, and
    is represented by NaN.

    Objects.  Classes become records inside a module named after the class;
    a subclass holds its superclass part in the field [base].  Methods that
    mutate [this] return the updated record.  [setTimeout] appends a pending
    timer to the game's timer list; [document.location.reload()] ends the
    session.  Drawing, overlay and audio calls have no effect on the
    simulation state and are left out. *)

From Stdlib Require Import QArith Qabs Lqa ZArith List Bool String Ascii Lia.
Import ListNotations.

(* ================================================================== *)
(** ** JavaScript numbers *)

Inductive num : Type :=
| Fin (q : Q)
| PInf
| NInf
| NaN.

Arguments Fin q%_Q.

Declare Scope js_scope.
Delimit Scope js_scope with js.
Bind Scope js_scope with num.

Module Num.

Definition neg (a : num) : num :=
  match a with
  | Fin q => Fin (- q)
  | PInf => NInf
  | NInf => PInf
  | NaN => NaN
  end.

Definition add (a b : num) : num :=
  match a, b with
  | NaN, _ | _, NaN => NaN
  | Fin p, Fin q => Fin (p + q)
  | PInf, NInf | NInf, PInf => NaN
  | PInf, _ | _, PInf => PInf
  | NInf, _ | _, NInf => NInf
  end.

Definition sub (a b : num) : num := add a (neg b).

(** The infinity whose sign is the sign of [q], NaN when [q] is zero. *)
Definition signed_inf (q : Q) (flip : bool) : num :=
  match q ?= 0 with
  | Eq => NaN
  | Gt => if flip then NInf else PInf
  | Lt => if flip then PInf else NInf
  end.

Definition mul (a b : num) : num :=
  match a, b with
  | NaN, _ | _, NaN => NaN
  | Fin p, Fin q => Fin (p * q)
  | Fin p, PInf | PInf, Fin p => signed_inf p false
  | Fin p, NInf | NInf, Fin p => signed_inf p true
  | PInf, PInf | NInf, NInf => PInf
  | PInf, NInf | NInf, PInf => NInf
  end.

Definition div (a b : num) : num :=
  match a, b with
  | NaN, _ | _, NaN => NaN
  | Fin p, Fin q => if Qeq_bool q 0 then signed_inf p false else Fin (p / q)
  | Fin _, PInf | Fin _, NInf => Fin 0
  | PInf, Fin q => match q ?= 0 with Lt => NInf | _ => PInf end
  | NInf, Fin q => match q ?= 0 with Lt => PInf | _ => NInf end
  | _, _ => NaN
  end.

Definition abs (a : num) : num :=
  match a with
  | Fin q => Fin (Qabs q)
  | PInf | NInf => PInf
  | NaN => NaN
  end.

(** [a < b] *)
Definition ltb (a b : num) : bool :=
  match a, b with
  | NaN, _ | _, NaN => false
  | Fin p, Fin q => match p ?= q with Lt => true | _ => false end
  | NInf, NInf | PInf, _ | _, NInf => false
  | NInf, _ | _, PInf => true
  end.

(** [a <= b] *)
Definition leb (a b : num) : bool :=
  match a, b with
  | NaN, _ | _, NaN => false
  | Fin p, Fin q => match p ?= q with Gt => false | _ => true end
  | NInf, _ | _, PInf => true
  | PInf, _ | _, NInf => false
  end.

(** [a > b] and [a >= b] *)
Definition gtb (a b : num) : bool := ltb b a.
Definition geb (a b : num) : bool := leb b a.

(** [a === b] on numbers *)
Definition seq (a b : num) : bool :=
  match a, b with
  | Fin p, Fin q => Qeq_bool p q
  | PInf, PInf | NInf, NInf => true
  | _, _ => false
  end.

(** ToBoolean on a number: false for 0 and NaN. *)
Definition truthy (a : num) : bool :=
  match a with
  | NaN => false
  | Fin q => negb (Qeq_bool q 0)
  | _ => true
  end.

(** [a || b] where [a] is a number *)
Definition or_else (a b : num) : num := if truthy a then a else b.

Definition of_Z (z : Z) : num := Fin (inject_Z z).

End Num.

Notation "a + b" := (Num.add a b) : js_scope.
Notation "a - b" := (Num.sub a b) : js_scope.
Notation "a * b" := (Num.mul a b) : js_scope.
Notation "a / b" := (Num.div a b) : js_scope.
Notation "- a" := (Num.neg a) : js_scope.
Notation "a <? b" := (Num.ltb a b) (at level 70) : js_scope.
Notation "a <=? b" := (Num.leb a b) (at level 70) : js_scope.
Notation "a >? b" := (Num.gtb a b) (at level 70) : js_scope.
Notation "a >=? b" := (Num.geb a b) (at level 70) : js_scope.
Notation "a === b" := (Num.seq a b) (at level 70) : js_scope.

(** [parseInt(s)] without a radix: leading white space, an optional sign,
    an optional [0x] prefix, then the longest run of digits; NaN when there
    is no digit. *)
Module ParseInt.

Definition is_space (c : ascii) : bool :=
  let n := nat_of_ascii c in
  (Nat.eqb n 32 || (Nat.leb 9 n && Nat.leb n 13))%bool.

Fixpoint skip_space (s : string) : string :=
  match s with
  | String c r => if is_space c then skip_space r else s
  | EmptyString => s
  end.

Definition digit (radix : Z) (c : ascii) : option Z :=
  let n := Z.of_nat (nat_of_ascii c) in
  let d :=
    if (48 <=? n)%Z && (n <=? 57)%Z then Some (n - 48)%Z
    else if (97 <=? n)%Z && (n <=? 122)%Z then Some (n - 87)%Z
    else if (65 <=? n)%Z && (n <=? 90)%Z then Some (n - 55)%Z
    else None in
  match d with
  | Some v => if (v <? radix)%Z then Some v else None
  | None => None
  end.

Fixpoint digits (radix : Z) (acc : option Z) (s : string) : option Z :=
  match s with
  | String c r =>
      match digit radix c with
      | Some v =>
          digits radix (Some (match acc with Some a => a * radix + v | None => v end)%Z) r
      | None => acc
      end
  | EmptyString => acc
  end.

Definition unsigned (s : string) : option Z :=
  match s with
  | String "0" (String "x" r) | String "0" (String "X" r) => digits 16 None r
  | _ => digits 10 None s
  end.

Definition parseInt (s : string) : num :=
  let s := skip_space s in
  let '(negative, s) :=
    match s with
    | String "-" r => (true, r)
    | String "+" r => (false, r)
    | _ => (false, s)
    end in
  match unsigned s with
  | Some z => Num.of_Z (if negative then - z else z)
  | None => NaN
  end.

End ParseInt.

(** ** game/helpers/utils.js *)

(** [boundBy(n, upper, lower)] *)
Definition boundBy (n upper lower : num) : num :=
  let n := if (n <? lower)%js then lower else n in
  let n := if (n >? upper)%js then upper else n in
  n.

(* ================================================================== *)
(** ** game/objects/sprite.js *)

Inductive Direction : Type := dir_left | dir_right.

Record Bounds : Type := mkBounds {
  top : num;
  right : num;
  bottom : num;
  left : num
}.

Module Sprite.

Record t : Type := mk {
  x : num;
  y : num;
  px : num;
  py : num;
  cx : num;
  cy : num;
  vx : num;
  vy : num;
  width : num;
  height : num;
  radius : num;
  speed : num;
  direction : Direction;
  bounds : Bounds
}.

(** [setBounds({ top, right, bottom, left })]: the four sides replace the
    ones held so far. *)
Definition setBounds (s : t) (b : Bounds) : t :=
  mk (x s) (y s) (px s) (py s) (cx s) (cy s) (vx s) (vy s)
     (width s) (height s) (radius s) (speed s) (direction s)
     (mkBounds (top b) (right b) (bottom b) (left b)).

(** [constructor({ x, y, width, height, speed, direction, bounds })];
    a missing [direction] is [None].  The previous y really is
    initialised from [x], as in the source. *)
Definition constructor (x0 y0 width0 height0 speed0 : num)
    (direction0 : option Direction) (bounds0 : Bounds) : t :=
  setBounds
    (mk x0 y0 x0 x0
        (x0 + width0 / Fin 2)%js (y0 + height0 / Fin 2)%js
        (Fin 0) (Fin 0)
        width0 height0
        ((width0 + height0) / Fin 4)%js
        (Num.or_else speed0 (Fin 1))
        (match direction0 with Some d => d | None => dir_right end)
        (mkBounds (Fin 0) (Fin 0) (Fin 0) (Fin 0)))
    bounds0.

(** [setX(x)] *)
Definition setX (s : t) (x0 : num) : t :=
  let px' := x s in
  let x' := x0 in
  let cx' := (x' + width s / Fin 2)%js in
  let vx' := (x' - px')%js in
  mk x' (y s) px' (py s) cx' (cy s) vx' (vy s)
     (width s) (height s) (radius s) (speed s) (direction s) (bounds s).

(** [setY(y)] *)
Definition setY (s : t) (y0 : num) : t :=
  let py' := y s in
  let y' := y0 in
  let cy' := (y' + height s / Fin 2)%js in
  let vy' := (y' - py')%js in
  mk (x s) y' (px s) py' (cx s) cy' (vx s) vy'
     (width s) (height s) (radius s) (speed s) (direction s) (bounds s).

Definition set_direction (s : t) (d : Direction) : t :=
  mk (x s) (y s) (px s) (py s) (cx s) (cy s) (vx s) (vy s)
     (width s) (height s) (radius s) (speed s) d (bounds s).

Definition set_x (s : t) (x0 : num) : t :=
  mk x0 (y s) (px s) (py s) (cx s) (cy s) (vx s) (vy s)
     (width s) (height s) (radius s) (speed s) (direction s) (bounds s).

Definition set_speed (s : t) (v : num) : t :=
  mk (x s) (y s) (px s) (py s) (cx s) (cy s) (vx s) (vy s)
     (width s) (height s) (radius s) v (direction s) (bounds s).

(** The candidate positions [dx] and [dy] of [move(x, y, m)]. *)
Definition candidateX (s : t) (ax m : num) : num :=
  if (ax === Fin 0)%js then x s else (x s + ax * speed s * m)%js.

Definition candidateY (s : t) (ay m : num) : num :=
  if (ay === Fin 0)%js then y s else (y s + ay * speed s * m)%js.

(** [move(x, y, m)]; the arguments are called [ax], [ay] here since [x]
    and [y] name the fields. *)
Definition move (s : t) (ax ay m : num) : t :=
  let dx := candidateX s ax m in
  let dy := candidateY s ay m in
  (* apply x bounds *)
  let inBoundsX :=
    ((dx >=? left (bounds s)) && (dx <=? right (bounds s) - width s))%js%bool in
  let s :=
    if inBoundsX then setX s dx
    else
      let snapTo :=
        if (dx <? left (bounds s))%js then left (bounds s)
        else (right (bounds s) - width s)%js in
      setX s snapTo in
  (* apply y bounds *)
  let inBoundsY :=
    ((dy >=? top (bounds s)) && (dy <=? bottom (bounds s) - height s))%js%bool in
  let s :=
    if inBoundsY then setY s dy
    else
      let snapTo :=
        if (dy <? top (bounds s))%js then top (bounds s)
        else (bottom (bounds s) - height s)%js in
      setY s snapTo in
  (* set direction *)
  let s := if (ax <? Fin 0)%js then set_direction s dir_right else s in
  let s := if (ax >? Fin 0)%js then set_direction s dir_left else s in
  s.

End Sprite.

(* ================================================================== *)
(** ** game/characters/player.js *)

Inductive PlayerName : Type := player1_name | player2_name.

Module Player.

Record t : Type := mk {
  base : Sprite.t;
  name : PlayerName;
  score : Z
}.

(** [constructor(options)]: the sprite part, then the name and a zero
    score.  The score only ever holds integers and is kept in [Z]. *)
Definition constructor (name0 : PlayerName) (x0 y0 width0 height0 speed0 : num)
    (bounds0 : Bounds) : t :=
  mk (Sprite.constructor x0 y0 width0 height0 speed0 None bounds0) name0 0%Z.

Definition move (p : t) (ax ay m : num) : t :=
  mk (Sprite.move (base p) ax ay m) (name p) (score p).

Definition add_score (p : t) (n : Z) : t :=
  mk (base p) (name p) (score p + n)%Z.

End Player.

(* ================================================================== *)
(** ** Deferred actions

    The two closures the code hands to [setTimeout]: the delayed branch of
    [Ball.launch], which captured [totalOffset] and [dx], and the
    [() => this.reset()] of [Game.play]. *)

Inductive Deferred : Type :=
| DeferredLaunch (totalOffset dx : num)
| DeferredReset.

Record Timer : Type := mkTimer {
  delay : num;
  action : Deferred
}.

(* ================================================================== *)
(** ** game/characters/ball.js *)

Module Ball.

(** Modelled from the spec: [objects/imageSprite.js], the class [Ball]
    extends, is not part of the sources at hand; by the spec the ball is an
    Entity and [super.move] is the Entity's [move], so the superclass part
    is a [Sprite.t] and the image it draws is left out. *)
Record t : Type := mk {
  base : Sprite.t;
  dx : num;
  dy : num;
  launched : bool
}.

Definition constructor (x0 y0 width0 height0 speed0 : num) (bounds0 : Bounds) : t :=
  mk (Sprite.constructor x0 y0 width0 height0 speed0 None bounds0)
     (Fin (-1)) (Fin 0) false.

(** [move(m)] *)
Definition move (b : t) (m : num) : t :=
  if negb (launched b) then b
  else mk (Sprite.move (base b) (dx b) (dy b) m) (dx b) (dy b) (launched b).

(** [stop()] *)
Definition stop (b : t) : t :=
  mk (base b) (Fin 0) (dy b) false.

(** The three assignments shared by both branches of [launch]; in the
    delayed branch they run when the timer fires, on the ball as it is
    then. *)
Definition launch_now (b : t) (totalOffset dx0 : num) : t :=
  mk (Sprite.set_x (base b) (Sprite.x (base b) + totalOffset)%js) dx0 (dy b) true.

(** ToBoolean on the [delay] argument, which is a number or [null]. *)
Definition has_delay (delay0 : option num) : bool :=
  match delay0 with
  | Some d => Num.truthy d
  | None => false
  end.

(** [launch(delay, dx, offset)]: the ball, and the timer it scheduled
    if any. *)
Definition launch (b : t) (delay0 : option num) (dx0 offset : num) : t * option Timer :=
  let totalOffset := ((offset + Sprite.width (base b)) * dx0)%js in
  let b := stop b in
  if has_delay delay0 then
    (b, Some (mkTimer (match delay0 with Some d => d | None => NaN end)
                      (DeferredLaunch totalOffset dx0)))
  else
    (launch_now b totalOffset dx0, None).

(** [collidesWith(entity)] *)
Definition collidesWith (b : t) (entity : Sprite.t) : bool :=
  let distanceX := Num.abs (Sprite.cx entity - Sprite.cx (base b))%js in
  let onY :=
    ((Sprite.cy (base b) >? Sprite.y entity)
     && (Sprite.cy (base b) <? Sprite.y entity + Sprite.height entity))%js%bool in
  (onY && (distanceX <? (Sprite.width entity + Sprite.width (base b)) / Fin 2)%js)%bool.

(** [collisionsWith(entities)]: [Array.prototype.find]. *)
Definition collisionsWith (b : t) (entities : list Player.t) : option Player.t :=
  List.find (fun ent => collidesWith b (Player.base ent)) entities.

Definition with_base (b : t) (s : Sprite.t) : t :=
  mk s (dx b) (dy b) (launched b).

Definition set_dx (b : t) (v : num) : t := mk (base b) v (dy b) (launched b).
Definition set_dy (b : t) (v : num) : t := mk (base b) (dx b) v (launched b).

End Ball.

(* ================================================================== *)
(** ** game/main.js *)

(** [this.config.settings], as far as the simulation reads it.
    [playerHeight] and [playerWidth] only occur as [playerHeight * scale],
    which converts them to numbers; the others go through [parseInt].  The
    spec names [difficulty] among the configured settings; no line of the
    code reads the field. *)
Module Settings.
Record t : Type := mk {
  playerHeight : num;
  playerWidth : num;
  ballSpeed : string;
  ballSize : string;
  winScore : string;
  difficulty : string
}.

(** What [parseInt] sees when handed the settings object itself: the
    string conversion of a plain object. *)
Definition toString (_ : t) : string := "[object Object]".
End Settings.

Module Screen.
Record t : Type := mk {
  top : num;
  bottom : num;
  left : num;
  right : num;
  centerX : num;
  centerY : num;
  scale : num
}.

(** The players receive the screen itself as [bounds]; [setBounds] reads
    its four sides. *)
Definition as_bounds (s : t) : Bounds := mkBounds (top s) (right s) (bottom s) (left s).
End Screen.

Inductive Phase : Type :=
| st_loading | st_ready | st_play | st_win_player1 | st_win_player2.

Definition Phase_eqb (a b : Phase) : bool :=
  match a, b with
  | st_loading, st_loading | st_ready, st_ready | st_play, st_play
  | st_win_player1, st_win_player1 | st_win_player2, st_win_player2 => true
  | _, _ => false
  end.

(** [current.includes('win')] *)
Definition includes_win (p : Phase) : bool :=
  match p with
  | st_win_player1 | st_win_player2 => true
  | _ => false
  end.

Inductive Source : Type := keyboard | mouse | touch.

Inductive Key : Type :=
| ArrowUp | ArrowDown | Space | KeyW | KeyS | ShiftLeft | KeyP | OtherKey.

Inductive Target : Type :=
| target_mute | target_pause | target_button | target_other.

Inductive Side : Type := side_right | side_left.

Module Game.

Record State : Type := mkState {
  current : Phase;
  prev : option Phase;
  paused : bool;
  muted : bool;
  winScore : num
}.

Record Input : Type := mkInput {
  in_current : Source;
  in_up : bool;
  in_down : bool;
  mouse_y : num;
  touch_y : num
}.

Record Input2 : Type := mkInput2 {
  in2_active : bool;
  in2_up : bool;
  in2_down : bool
}.

(** [this.frame] without the request handle.  [rate] and [scale] start as
    [null], which every use converts to 0. *)
Record Frame : Type := mkFrame {
  time : num;
  rate : num;
  scale : num
}.

Record t : Type := mk {
  settings : Settings.t;
  screen : Screen.t;
  offsetTop : num;          (* [this.canvas.offsetTop] *)
  frame : Frame;
  state : State;
  input : Input;
  input2 : Input2;
  player1 : Player.t;
  player2 : Player.t;
  ball : Ball.t;
  timers : list Timer       (* pending [setTimeout] callbacks, oldest first *)
}.

Definition with_state (g : t) (s : State) : t :=
  mk (settings g) (screen g) (offsetTop g) (frame g) s (input g) (input2 g)
     (player1 g) (player2 g) (ball g) (timers g).
Definition with_frame (g : t) (f : Frame) : t :=
  mk (settings g) (screen g) (offsetTop g) f (state g) (input g) (input2 g)
     (player1 g) (player2 g) (ball g) (timers g).
Definition with_input (g : t) (i : Input) : t :=
  mk (settings g) (screen g) (offsetTop g) (frame g) (state g) i (input2 g)
     (player1 g) (player2 g) (ball g) (timers g).
Definition with_input2 (g : t) (i : Input2) : t :=
  mk (settings g) (screen g) (offsetTop g) (frame g) (state g) (input g) i
     (player1 g) (player2 g) (ball g) (timers g).
Definition with_player1 (g : t) (p : Player.t) : t :=
  mk (settings g) (screen g) (offsetTop g) (frame g) (state g) (input g) (input2 g)
     p (player2 g) (ball g) (timers g).
Definition with_player2 (g : t) (p : Player.t) : t :=
  mk (settings g) (screen g) (offsetTop g) (frame g) (state g) (input g) (input2 g)
     (player1 g) p (ball g) (timers g).
Definition with_ball (g : t) (b : Ball.t) : t :=
  mk (settings g) (screen g) (offsetTop g) (frame g) (state g) (input g) (input2 g)
     (player1 g) (player2 g) b (timers g).

(** [setTimeout(callback, delay)] *)
Definition setTimeout (g : t) (a : Deferred) (d : num) : t :=
  mk (settings g) (screen g) (offsetTop g) (frame g) (state g) (input g) (input2 g)
     (player1 g) (player2 g) (ball g) (timers g ++ [mkTimer d a]).

Definition schedule (g : t) (tm : option Timer) : t :=
  match tm with
  | Some tm => setTimeout g (action tm) (delay tm)
  | None => g
  end.

(** [setState({ current: p })]: the old [current] becomes [prev]. *)
Definition setState_current (g : t) (p : Phase) : t :=
  let s := state g in
  with_state g (mkState p (Some (current s)) (paused s) (muted s) (winScore s)).

(** [setState({ winScore: w })] *)
Definition setState_winScore (g : t) (w : num) : t :=
  let s := state g in
  with_state g (mkState (current s) (Some (current s)) (paused s) (muted s) w).

(** [requestFrame(next, resumed)] at [Date.now() = now].  The object
    literal is evaluated before it is assigned, so [scale] is computed from
    the rate of the frame before. *)
Definition requestFrame (g : t) (now : num) (resumed : bool) : t :=
  let f := frame g in
  with_frame g
    (mkFrame now
             (if resumed then Fin 0 else (now - time f)%js)
             (Screen.scale (screen g) * rate f * Fin (1 # 100))%js).

(** The screen that [load()] computes from the canvas size. *)
Definition load_screen (canvasWidth canvasHeight : num) : Screen.t :=
  Screen.mk (Fin 0) canvasHeight (Fin 0) canvasWidth
            (canvasWidth / Fin 2)%js (canvasHeight / Fin 2)%js
            (((canvasWidth + canvasHeight) / Fin 2) * Fin (3 # 1000))%js.

(** *** The blocks of [play()], in source order *)

(** [// check for winner] *)
Definition check_winner (g : t) : t :=
  let g :=
    if (Num.of_Z (Player.score (player1 g)) === winScore (state g))%js
    then setState_current g st_win_player1 else g in
  let g :=
    if (Num.of_Z (Player.score (player2 g)) === winScore (state g))%js
    then setState_current g st_win_player2 else g in
  g.

(** [(up ? -1 : 0) + (down ? 1 : 0)] *)
Definition keys_axis (up down : bool) : num :=
  ((if up then Fin (-1) else Fin 0) + (if down then Fin 1 else Fin 0))%js.

(** [// player 1] *)
Definition move_player1 (g : t) : t :=
  let g :=
    match in_current (input g) with
    | keyboard =>
        let dy1 := keys_axis (in_up (input g)) (in_down (input g)) in
        with_player1 g (Player.move (player1 g) (Fin 0) dy1 (scale (frame g)))
    | _ => g
    end in
  let pointer (g : t) (py0 : num) : t :=
    let y := (py0 - offsetTop g)%js in
    let diffY :=
      (y - Sprite.y (Player.base (player1 g))
         - Sprite.height (Player.base (player1 g)) / Fin 2)%js in
    with_player1 g (Player.move (player1 g) (Fin 0) (diffY / Fin 100)%js (Fin 1)) in
  let g :=
    match in_current (input g) with
    | mouse => pointer g (mouse_y (input g))
    | _ => g
    end in
  let g :=
    match in_current (input g) with
    | touch => pointer g (touch_y (input g))
    | _ => g
    end in
  g.

(** The axis the computer opponent hands to [move]: [dy2capped]. *)
Definition computer_axis (g : t) : num :=
  let diffY :=
    (Sprite.y (Ball.base (ball g)) / Fin 2
     - Sprite.y (Player.base (player2 g)))%js in
  let dy2 := (diffY / (Sprite.x (Ball.base (ball g)) * Fin 2))%js in
  (* apply a difficulty/speed limit *)
  let difficulty := ParseInt.parseInt (Settings.toString (settings g)) in
  let speedLimit := (difficulty / Fin 2)%js in
  boundBy dy2 speedLimit (- speedLimit)%js.

(** [!this.input2.active && this.ball.launched && this.ball.dx < 0] *)
Definition computer_active (g : t) : bool :=
  negb (in2_active (input2 g)) && Ball.launched (ball g)
  && (Ball.dx (ball g) <? Fin 0)%js.

(** [// player 2: computer] *)
Definition move_computer (g : t) : t :=
  if computer_active g
  then with_player2 g (Player.move (player2 g) (Fin 0) (computer_axis g) (scale (frame g)))
  else g.

(** [// player 2: human] *)
Definition move_player2 (g : t) : t :=
  if in2_active (input2 g) then
    let dy2 := keys_axis (in2_up (input2 g)) (in2_down (input2 g)) in
    with_player2 g (Player.move (player2 g) (Fin 0) dy2 (scale (frame g)))
  else g.

(** [// bounce ball off of ceiling or floor] *)
Definition bounce_edge (g : t) : t :=
  let b := ball g in
  let onEdgeY :=
    ((Sprite.y (Ball.base b) === Screen.top (screen g))
     || (Sprite.y (Ball.base b)
         === Screen.bottom (screen g) - Sprite.height (Ball.base b)))%js%bool in
  if onEdgeY then with_ball g (Ball.set_dy b (- Ball.dy b)%js) else g.

(** [let collided = this.ball.collisionsWith([this.player1, this.player2])] *)
Definition collided (g : t) : option Player.t :=
  Ball.collisionsWith (ball g) [player1 g; player2 g].

Definition collided_name (g : t) : option PlayerName :=
  option_map Player.name (collided g).

Definition add_ball_speed (b : Ball.t) (n : num) : Ball.t :=
  Ball.with_base b (Sprite.set_speed (Ball.base b) (Sprite.speed (Ball.base b) + n)%js).

Definition reset_ball_speed (g : t) : t :=
  with_ball g
    (Ball.with_base (ball g)
       (Sprite.set_speed (Ball.base (ball g))
          (ParseInt.parseInt (Settings.ballSpeed (settings g))))).

(** [// bounce ball off player1], with [collided] already computed *)
Definition bounce_player1 (c : option PlayerName) (g : t) : t :=
  match c with
  | Some player1_name =>
      with_ball g (add_ball_speed (Ball.set_dx (ball g) (Fin (-1))) (Fin 1))
  | _ => g
  end.

(** [// bounce ball off player2] *)
Definition bounce_player2 (c : option PlayerName) (g : t) : t :=
  match c with
  | Some player2_name =>
      let g := with_ball g (add_ball_speed (Ball.set_dx (ball g) (Fin 1)) (Fin 10)) in
      let g := with_ball g (Ball.stop (ball g)) in
      setTimeout g DeferredReset (Fin 1000)
  | _ => g
  end.

(** [this.ball.launched && this.ball.x <= this.ball.bounds.left] *)
Definition touches_left (g : t) : bool :=
  Ball.launched (ball g)
  && (Sprite.x (Ball.base (ball g)) <=? left (Sprite.bounds (Ball.base (ball g))))%js.

(** [// if ball touches left side, player1 scores] *)
Definition score_left (g : t) : t :=
  if touches_left g then
    (* give player1 one point *)
    let g := with_player2 g (Player.add_score (player2 g) 1) in
    (* reset ball speed *)
    let g := reset_ball_speed g in
    let g :=
      if in2_active (input2 g) then
        (* wait for player2 human to relaunch *)
        with_ball g (Ball.stop (ball g))
      else
        (* player2 computer to relaunch after 3 seconds *)
        let g :=
          with_ball g
            (Ball.with_base (ball g)
               (Sprite.setY (Ball.base (ball g)) (Sprite.y (Player.base (player2 g))))) in
        let '(b, tm) :=
          Ball.launch (ball g) (Some (Fin 3000)) (Fin 1)
                      (Sprite.width (Player.base (player2 g))) in
        schedule (with_ball g b) tm in
    setTimeout g DeferredReset (Fin 1000)
  else g.

(** [this.ball.launched && this.ball.x + this.ball.width >= this.ball.bounds.right] *)
Definition touches_right (g : t) : bool :=
  Ball.launched (ball g)
  && (Sprite.x (Ball.base (ball g)) + Sprite.width (Ball.base (ball g))
      >=? right (Sprite.bounds (Ball.base (ball g))))%js.

(** [// if ball touches right side, player2 scores] *)
Definition score_right (g : t) : t :=
  if touches_right g then
    (* give player2 one point *)
    let g := with_player2 g (Player.add_score (player2 g) 1) in
    (* reset ball speed *)
    let g := reset_ball_speed g in
    with_ball g (Ball.stop (ball g))
  else g.

(** [this.ball.move(this.frame.scale)] *)
Definition move_ball (g : t) : t :=
  with_ball g (Ball.move (ball g) (scale (frame g))).

(** The state in which the left-side test of the tick is evaluated. *)
Definition before_scoring (g : t) : t :=
  let g := check_winner g in
  let g := move_player1 g in
  let g := move_computer g in
  let g := move_player2 g in
  let g := bounce_edge g in
  let c := collided_name g in
  let g := bounce_player1 c g in
  let g := bounce_player2 c g in
  g.

(** The body of [if (this.state.current === 'play') { ... }] *)
Definition play_block (g : t) : t :=
  move_ball (score_right (score_left (before_scoring g))).

(** [// ready to play]: the first tick after loading records [ready] as the
    previous state too. *)
Definition ready_to_play (g : t) : t :=
  if Phase_eqb (current (state g)) st_ready
     && match prev (state g) with Some st_loading => true | _ => false end
  then setState_current g st_ready else g.

(** [// game play] *)
Definition game_play (g : t) : t :=
  if Phase_eqb (current (state g)) st_play then play_block g else g.

(** [play()], called at [Date.now() = now] *)
Definition play (g : t) (now : num) : t :=
  let g := ready_to_play g in
  let g := game_play g in
  requestFrame g now false.

End Game.

(* ================================================================== *)
(** ** Sessions: creation, event handlers, reachable states *)

Module Session.
Import Game.

(** What a page load fixes before [create()] runs: the configuration, the
    canvas, the stored mute preference, the input records as the events
    received while loading left them, and the time of construction. *)
Record Boot : Type := mkBoot {
  boot_settings : Settings.t;
  canvasWidth : num;
  canvasHeight : num;
  boot_offsetTop : num;
  boot_muted : bool;
  boot_input : Input;
  boot_input2 : Input2;
  boot_time : num
}.

(** The input records of the constructor. *)
Definition constructor_input : Input := mkInput keyboard false false (Fin 0) (Fin 0).
Definition constructor_input2 : Input2 := mkInput2 false false false.

(** The constructor, [load()] up to its asset request, and [create()] up
    to [this.setState({ current: 'ready' })]. *)
Definition create_characters (bt : Boot) : t :=
  let cfg := boot_settings bt in
  let scr := load_screen (canvasWidth bt) (canvasHeight bt) in
  let st0 := mkState st_loading None false (boot_muted bt) NaN in
  (* load(): setState({ winScore: parseInt(...) }) *)
  let st1 :=
    mkState (current st0) (Some (current st0)) (paused st0) (muted st0)
            (ParseInt.parseInt (Settings.winScore cfg)) in
  let pHeight := (Settings.playerHeight cfg * Screen.scale scr)%js in
  let pWidth := (Settings.playerWidth cfg * Screen.scale scr)%js in
  let p1 :=
    Player.constructor player1_name
      (Screen.right scr - pWidth)%js (Screen.centerY scr - pHeight / Fin 2)%js
      pWidth pHeight (Fin 50) (Screen.as_bounds scr) in
  let p2 :=
    Player.constructor player2_name
      (Fin 0) (Screen.centerY scr - pHeight / Fin 2)%js
      pWidth pHeight (Fin 50) (Screen.as_bounds scr) in
  let ballSpeed := ParseInt.parseInt (Settings.ballSpeed cfg) in
  let ballSize := ParseInt.parseInt (Settings.ballSize cfg) in
  let ballWidth := (ballSize * Screen.scale scr)%js in
  let ballHeight := (ballSize * Screen.scale scr)%js in
  let b :=
    Ball.constructor
      (Screen.right scr + ballWidth)%js (Sprite.y (Player.base p1))
      ballWidth ballHeight ballSpeed
      (mkBounds (Fin 0) (Screen.right scr + ballWidth)%js
                (Screen.bottom scr) (Screen.left scr - ballWidth)%js) in
  let g :=
    mk cfg scr (boot_offsetTop bt) (mkFrame (boot_time bt) (Fin 0) (Fin 0))
       st1 (boot_input bt) (boot_input2 bt) p1 p2 b [] in
  setState_current g st_ready.

(** [create()], whose last statement is the first call of [play()]. *)
Definition create (bt : Boot) (now : num) : t :=
  play (create_characters bt) now.

(** [relaunchBall(side)] *)
Definition relaunchBall (g : t) (side : Side) : t :=
  if Ball.launched (ball g) then g
  else
    let g := reset_ball_speed g in
    let from (g : t) (p : Player.t) (dx0 : num) : t :=
      let g :=
        with_ball g
          (Ball.with_base (ball g)
             (Sprite.setY (Ball.base (ball g)) (Sprite.y (Player.base p)))) in
      let '(b, tm) := Ball.launch (ball g) None dx0 (Sprite.width (Player.base p)) in
      schedule (with_ball g b) tm in
    match side with
    | side_right => from g (player1 g) (Fin (-1))
    | side_left => from g (player2 g) (Fin 1)
    end.

(** [this.ball.launched === false && this.ball.x > this.screen.centerX] *)
Definition onRightSide (g : t) : bool :=
  negb (Ball.launched (ball g))
  && (Sprite.x (Ball.base (ball g)) >? Screen.centerX (screen g))%js.

(** [pause()] at [Date.now() = now] *)
Definition pause (g : t) (now : num) : t :=
  if negb (Phase_eqb (current (state g)) st_play) then g
  else
    let s := state g in
    let g := with_state g (mkState (current s) (prev s) (negb (paused s)) (muted s) (winScore s)) in
    if paused (state g) then g            (* cancelFrame *)
    else requestFrame g now true.

(** [mute()]: the stored preference and [state.muted] flip together. *)
Definition mute (g : t) : t :=
  let s := state g in
  with_state g (mkState (current s) (prev s) (paused s) (negb (muted s)) (winScore s)).

(** [handleClicks(target)]; [None] is [document.location.reload()]. *)
Definition handleClicks (g : t) (target : Target) (now : num) : option t :=
  if Phase_eqb (current (state g)) st_loading then Some g
  else
    match target with
    | target_mute => Some (mute g)
    | target_pause => Some (pause g now)
    | target_button => Some (setState_current g st_play)
    | target_other =>
        let onSide := onRightSide g in
        let g :=
          if Phase_eqb (current (state g)) st_play && onSide
          then relaunchBall g side_right else g in
        if includes_win (current (state g)) then None else Some g
    end.

Definition set_keys1 (g : t) (up down : bool) : t :=
  let i := input g in
  with_input g (mkInput (in_current i) up down (mouse_y i) (touch_y i)).

Definition set_keys2 (g : t) (up down : bool) : t :=
  let i := input2 g in
  with_input2 g (mkInput2 (in2_active i) up down).

(** [handleKeyboardInput(type, code)], block by block; [keydown] is [true]
    for a ['keydown'] event and [false] for a ['keyup']. *)

(** [this.input.current = 'keyboard'] *)
Definition keyboard_source (g : t) : t :=
  let i := input g in
  with_input g (mkInput keyboard (in_up i) (in_down i) (mouse_y i) (touch_y i)).

(** [// player 1], the relaunch with the space bar included *)
Definition keys_player1 (g : t) (keydown : bool) (code : Key) : t :=
  match keydown, code with
  | true, ArrowUp => set_keys1 g true (in_down (input g))
  | true, ArrowDown => set_keys1 g (in_up (input g)) true
  | false, ArrowUp => set_keys1 g false (in_down (input g))
  | false, ArrowDown => set_keys1 g (in_up (input g)) false
  | false, Space =>
      let rightSide := onRightSide g in
      if Phase_eqb (current (state g)) st_play && rightSide
      then relaunchBall g side_right else g
  | _, _ => g
  end.

(** [// player 2], the relaunch with the left shift key included *)
Definition keys_player2 (g : t) (keydown : bool) (code : Key) : t :=
  match keydown, code with
  | true, KeyW => set_keys2 g true (in2_down (input2 g))
  | true, KeyS => set_keys2 g (in2_up (input2 g)) true
  | true, ShiftLeft =>
      let rightSide := onRightSide g in
      if Phase_eqb (current (state g)) st_play && negb rightSide
      then relaunchBall g side_left else g
  | false, KeyW => set_keys2 g false (in2_down (input2 g))
  | false, KeyS => set_keys2 g (in2_up (input2 g)) false
  | _, _ => g
  end.

(** [// switch to 2 player if W or S are pressed] *)
Definition join_player2 (g : t) (keydown : bool) (code : Key) : t :=
  match keydown, code with
  | true, KeyW | true, KeyS =>
      if negb (in2_active (input2 g))
      then with_input2 g (mkInput2 true (in2_up (input2 g)) (in2_down (input2 g)))
      else g
  | _, _ => g
  end.

(** [// pause and play game if P is pressed] *)
Definition pause_key (g : t) (keydown : bool) (code : Key) (now : num) : t :=
  match keydown, code with
  | true, KeyP => pause g now
  | _, _ => g
  end.

(** The whole handler; its last block reloads the page after a win when the
    space bar is released. *)
Definition handleKeyboardInput (g : t) (keydown : bool) (code : Key) (now : num)
  : option t :=
  let g := keyboard_source g in
  let g := keys_player1 g keydown code in
  let g := keys_player2 g keydown code in
  let g := join_player2 g keydown code in
  let g := pause_key g keydown code now in
  match keydown, code with
  | false, Space => if includes_win (current (state g)) then None else Some g
  | _, _ => Some g
  end.

(** [handleMouseMove(y)] and [handleTouchMove(touch)] *)
Definition handleMouseMove (g : t) (clientY : num) : t :=
  let i := input g in
  with_input g (mkInput mouse (in_up i) (in_down i) clientY (touch_y i)).

Definition handleTouchMove (g : t) (clientY : num) : t :=
  let i := input g in
  with_input g (mkInput touch (in_up i) (in_down i) (mouse_y i) clientY).

(** A [setTimeout] callback runs. *)
Definition run_deferred (g : t) (a : Deferred) : option t :=
  match a with
  | DeferredLaunch totalOffset dx0 =>
      Some (with_ball g (Ball.launch_now (ball g) totalOffset dx0))
  | DeferredReset => None
  end.

Definition drop_timer (g : t) (i : nat) : t :=
  mk (settings g) (screen g) (offsetTop g) (frame g) (state g) (input g) (input2 g)
     (player1 g) (player2 g) (ball g) (firstn i (timers g) ++ skipn (S i) (timers g)).

(** What the browser can deliver to a running session.  A live change of
    the configuration (the [Koji.on('change', ...)] callback, which loads and
    creates everything again) is not among the events: a session is
    followed under one configuration. *)
Inductive Event : Type :=
| AnimationFrame (now : num)
| KeyDown (code : Key) (now : num)
| KeyUp (code : Key) (now : num)
| MouseMove (clientY : num)
| TouchMove (clientY : num)
| Click (target : Target) (now : num)
| Resize
| Timeout (i : nat).

(** Modelled from the spec: [helpers/animationframe.js], whose
    [requestAnimationFrame] and [cancelAnimationFrame] the game calls in
    [requestFrame] and [cancelFrame], and the host's timer queue are not
    part of the sources at hand.  By the spec, pausing cancels the
    next-frame scheduling only and already-scheduled deferred timers keep
    running during pause: a frame callback can run exactly while the game is
    not paused, and a timer can run once it is pending, paused or not.
    Timers are not ordered by their delays: any pending one may run next,
    which allows more runs than a browser does. *)
Definition enabled (g : t) (e : Event) : bool :=
  match e with
  | AnimationFrame _ => negb (paused (state g))
  | Timeout i => Nat.ltb i (List.length (timers g))
  | _ => true
  end.

(** One event; [None] when the page reloads and the session ends. *)
Definition handle (g : t) (e : Event) : option t :=
  match e with
  | AnimationFrame now => Some (play g now)
  | KeyDown code now => handleKeyboardInput g true code now
  | KeyUp code now => handleKeyboardInput g false code now
  | MouseMove clientY => Some (handleMouseMove g clientY)
  | TouchMove clientY => Some (handleTouchMove g clientY)
  | Click target now => handleClicks g target now
  | Resize => None
  | Timeout i =>
      match nth_error (timers g) i with
      | Some tm => run_deferred (drop_timer g i) (action tm)
      | None => Some g
      end
  end.

(** The events of a run, applied from the left; [None] when an event is
    not enabled or the session has ended. *)
Fixpoint run (g : t) (es : list Event) : option t :=
  match es with
  | [] => Some g
  | e :: es =>
      if enabled g e then
        match handle g e with
        | Some g' => run g' es
        | None => None
        end
      else None
  end.

Inductive reachable : t -> Prop :=
| reach_create : forall bt now, reachable (create bt now)
| reach_step : forall g e g',
    reachable g -> enabled g e = true -> handle g e = Some g' -> reachable g'.

End Session.


(* ================================================================== *)
(** ** game/helpers/utils.js: [hashCode] and [throttled] *)

Module Utils.

(** ToInt32: the 32-bit two's complement value of an integer. *)
Definition toInt32 (z : Z) : Z := ((z + 2 ^ 31) mod 2 ^ 32 - 2 ^ 31)%Z.

(** [a << n] for a shift count below 32, and [a & b]. *)
Definition shl (a n : Z) : Z := toInt32 (toInt32 a * 2 ^ n).
Definition and32 (a b : Z) : Z := toInt32 (Z.land (toInt32 a) (toInt32 b)).

(** [b.charCodeAt(0)]; the strings of this development hold code units
    below 256. *)
Definition charCode (b : ascii) : Z := Z.of_nat (nat_of_ascii b).

(** The reducer of [hashCode]:
    [a = ((a << 5) - a) + b.charCodeAt(0); return a & a]. *)
Definition hash_step (a : Z) (b : ascii) : Z :=
  let a := (shl a 5 - a + charCode b)%Z in
  and32 a a.

(** [str.split("").reduce(f, a)] *)
Fixpoint reduce (f : Z -> ascii -> Z) (a : Z) (str : string) : Z :=
  match str with
  | EmptyString => a
  | String b r => reduce f (f a b) r
  end.

(** The number inside the brackets of [hashCode]. *)
Definition hash (str : string) : Z := reduce hash_step 0 str.

(** The digit characters of [Number.prototype.toString(base)]. *)
Definition digit_char (d : Z) : ascii :=
  if (d <? 10)%Z then ascii_of_nat (Z.to_nat (48 + d))
  else ascii_of_nat (Z.to_nat (87 + d)).

(** The digits of [n], most significant first, in front of [acc]; [fuel]
    bounds their number. *)
Fixpoint to_digits (fuel : nat) (base n : Z) (acc : string) : string :=
  match fuel with
  | O => acc
  | S f =>
      let acc := String (digit_char (n mod base)) acc in
      if (n / base =? 0)%Z then acc else to_digits f base (n / base) acc
  end.

(** [num.toString(base)] for an integer [num >= 0]; 64 digits are enough
    for every value below [2 ^ 64] in every base. *)
Definition toString (base n : Z) : string := to_digits 64 base n EmptyString.


(** [throttled(delay, fn)]: the closure holds [lastCall], 0 at first.  One
    call at [(new Date).getTime() = now] gives the new [lastCall] and whether
    [fn] ran. *)
Definition throttled_call (delay lastCall now : num) : num * bool :=
  if (now - lastCall <? delay)%js then (lastCall, false) else (now, true).

(** A series of calls, at the times given: the times at which [fn] ran,
    oldest first. *)
Fixpoint throttled_calls (delay lastCall : num) (times : list num) : list num :=
  match times with
  | [] => []
  | now :: rest =>
      let '(lastCall', ran) := throttled_call delay lastCall now in
      if ran then now :: throttled_calls delay lastCall' rest
      else throttled_calls delay lastCall' rest
  end.

End Utils.

(* ================================================================== *)
(** ** game/main.js: the playlist

    [playback], the callback it passes to [audioPlayback] and
    [stopPlayback].  An entry keeps the [id] and [key] of the source; of the
    playback handle only whether [pause()] was called on it is recorded.
    [Math.random()] supplies the id, which is an argument here. *)

Module Playlist.

Record Entry : Type := mkEntry {
  id : string;
  key : string;
  paused_by_stop : bool
}.



(** [stopPlayback(key)]: the callback pauses the entries of that key and
    returns [targetBuffer], so [filter] keeps exactly those. *)
Definition stopPlayback (playlist : list Entry) (key0 : string) : list Entry :=
  List.map (fun s => mkEntry (id s) (key s) true)
    (List.filter (fun s => String.eqb (key s) key0) playlist).

End Playlist.

(* ================================================================== *)
(** * Vocabulary of the properties *)

Module SpriteSpec.
Import Sprite.

(** The largest x and y at which the sprite still lies inside its bounds. *)
Definition maxX (s : t) : num := (right (bounds s) - width s)%js.
Definition maxY (s : t) : num := (bottom (bounds s) - height s)%js.

(** [x] in [[bounds.left, bounds.right - width]] and [y] in
    [[bounds.top, bounds.bottom - height]]: the invariant the spec states
    for an entity after a move. *)
Definition in_rangeX (s : t) : bool :=
  ((left (bounds s) <=? x s) && (x s <=? maxX s))%js%bool.
Definition in_rangeY (s : t) : bool :=
  ((top (bounds s) <=? y s) && (y s <=? maxY s))%js%bool.
Definition in_bounds (s : t) : bool := in_rangeX s && in_rangeY s.

(** The two ranges are not empty: the sprite fits between its bounds. *)
Definition fitsX (s : t) : bool := (left (bounds s) <=? maxX s)%js.
Definition fitsY (s : t) : bool := (top (bounds s) <=? maxY s)%js.

(** The centre as the spec derives it from the position. *)
Definition centred (s : t) : Prop :=
  cx s = (x s + width s / Fin 2)%js /\ cy s = (y s + height s / Fin 2)%js.

Definition centredb (s : t) : bool :=
  ((cx s === x s + width s / Fin 2) && (cy s === y s + height s / Fin 2))%js%bool.

(** What the two bounds blocks of [move] write: the candidate, or the edge
    it snaps to. *)
Definition clampX (s : t) (c : num) : num :=
  if ((c >=? left (bounds s)) && (c <=? maxX s))%js%bool then c
  else if (c <? left (bounds s))%js then left (bounds s) else maxX s.

Definition clampY (s : t) (c : num) : num :=
  if ((c >=? top (bounds s)) && (c <=? maxY s))%js%bool then c
  else if (c <? top (bounds s))%js then top (bounds s) else maxY s.

(** A finite number of magnitude at most [2^1022].  The sum of two such
    numbers stays below the largest double, so adding them cannot overflow
    to an infinity. *)
Definition sum_safe (a : num) : bool :=
  match a with
  | Fin q => Qle_bool (Qabs q) (inject_Z (2 ^ 1022))
  | _ => false
  end.

End SpriteSpec.

(** ** Concrete entities *)

Module Samples.

(** A 10 x 10 sprite at the origin of a 100 x 100 area, speed 3. *)
Definition small_sprite : Sprite.t :=
  Sprite.constructor (Fin 0) (Fin 0) (Fin 10) (Fin 10) (Fin 3) None
    (mkBounds (Fin 0) (Fin 100) (Fin 100) (Fin 0)).

(** A sprite 10 wide between bounds only 5 apart ([right > left] holds). *)
Definition wide_sprite : Sprite.t :=
  Sprite.constructor (Fin 0) (Fin 0) (Fin 10) (Fin 10) (Fin 1) None
    (mkBounds (Fin 0) (Fin 5) (Fin 100) (Fin 0)).

(** A stopped ball at x = 100, 10 wide, inside a 200 x 200 area. *)
Definition resting_ball : Ball.t :=
  Ball.constructor (Fin 100) (Fin 50) (Fin 10) (Fin 10) (Fin 5)
    (mkBounds (Fin 0) (Fin 200) (Fin 200) (Fin 0)).

(** Scenario 2 of the spec: a 20 x 100 paddle centred at (400, 300), and
    10 x 10 balls centred at (400, 300) and at (500, 300). *)
Definition paddle_400 : Player.t :=
  Player.constructor player1_name (Fin 390) (Fin 250) (Fin 20) (Fin 100) (Fin 50)
    (mkBounds (Fin 0) (Fin 800) (Fin 600) (Fin 0)).

Definition paddle_far : Player.t :=
  Player.constructor player2_name (Fin 0) (Fin 250) (Fin 20) (Fin 100) (Fin 50)
    (mkBounds (Fin 0) (Fin 800) (Fin 600) (Fin 0)).

Definition ball_400 : Ball.t :=
  Ball.constructor (Fin 395) (Fin 295) (Fin 10) (Fin 10) (Fin 5)
    (mkBounds (Fin 0) (Fin 810) (Fin 600) (Fin (-10))).

Definition ball_500 : Ball.t :=
  Ball.constructor (Fin 495) (Fin 295) (Fin 10) (Fin 10) (Fin 5)
    (mkBounds (Fin 0) (Fin 810) (Fin 600) (Fin (-10))).

End Samples.

(** ** The computer opponent, as the spec words it *)

Module GameSpec.
Import Game.

(** [dy2]: the offset [ballY/2 - paddleY] over [ballX*2], before any limit. *)
Definition raw_axis (g : t) : num :=
  ((Sprite.y (Ball.base (ball g)) / Fin 2 - Sprite.y (Player.base (player2 g)))
   / (Sprite.x (Ball.base (ball g)) * Fin 2))%js.

(** The axis of the spec: [raw_axis] clamped symmetrically into
    [+-(difficultySetting / 2)], the configured difficulty being the
    [difficulty] setting. *)
Definition spec_computer_axis (g : t) : num :=
  let speedLimit := (ParseInt.parseInt (Settings.difficulty (settings g)) / Fin 2)%js in
  boundBy (raw_axis g) speedLimit (- speedLimit)%js.

(** What no block of a tick touches before the scoring tests: the
    configuration, the screen, the inputs, the frame record, both scores and
    the sizes of the ball and of the left paddle. *)
Definition tick_frame (g g' : t) : Prop :=
  settings g' = settings g /\ screen g' = screen g /\
  input g' = input g /\ input2 g' = input2 g /\ frame g' = frame g /\
  Player.score (player1 g') = Player.score (player1 g) /\
  Player.score (player2 g') = Player.score (player2 g) /\
  Sprite.width (Player.base (player2 g')) = Sprite.width (Player.base (player2 g)) /\
  Sprite.width (Ball.base (ball g')) = Sprite.width (Ball.base (ball g)).


End GameSpec.

(** ** Concrete sessions *)

Module Scenario.
Import Game Session.

(** The state after the events [es], or [g] itself if the run stops. *)
Definition after (g : t) (es : list Event) : t :=
  match run g es with
  | Some g' => g'
  | None => g
  end.

(** A 1000 x 1000 canvas (screen scale 3); paddles 15 x 30, ball 60 x 60,
    ball speed 100, win score 5, difficulty 1. *)
Definition settings5 : Settings.t :=
  Settings.mk (Fin 10) (Fin 5) "100" "20" "5" "1".

Definition boot5 : Boot :=
  mkBoot settings5 (Fin 1000) (Fin 1000) (Fin 0) false
         constructor_input constructor_input2 (Fin 0).

Definition start5 : t := create boot5 (Fin 0).

(** The same page with a win score of 0. *)
Definition boot0 : Boot :=
  mkBoot (Settings.mk (Fin 10) (Fin 5) "100" "20" "0" "1")
         (Fin 1000) (Fin 1000) (Fin 0) false
         constructor_input constructor_input2 (Fin 0).

Definition start0 : t := create boot0 (Fin 0).

(** Start the game: the button is pressed with both scores at 0. *)
Definition tie_trace : list Event := [Click target_button (Fin 0)].
Definition tie_state : t := after start0 tie_trace.

(** Start, launch from the right with the space bar, then three frames one
    second apart: the third one carries the ball to its left bound. *)
Definition left_trace : list Event :=
  [Click target_button (Fin 0); KeyUp Space (Fin 0);
   AnimationFrame (Fin 1000); AnimationFrame (Fin 2000); AnimationFrame (Fin 3000)].
Definition left_state : t := after start5 left_trace.

(** Start, launch, then three frames 300 ms apart: the ball is at x = 85,
    close to the computer's paddle. *)
Definition near_trace : list Event :=
  [Click target_button (Fin 0); KeyUp Space (Fin 0);
   AnimationFrame (Fin 300); AnimationFrame (Fin 600); AnimationFrame (Fin 900)].
Definition near_state : t := after start5 near_trace.

(** Start, drag the right paddle to the bottom with the mouse, launch. *)
Definition low_trace : list Event :=
  [Click target_button (Fin 0); MouseMove (Fin 2000); AnimationFrame (Fin 16);
   KeyUp Space (Fin 20)].
Definition low_state : t := after start5 low_trace.

End Scenario.

(** ** Vocabulary for the utilities *)

Module UtilsSpec.

(** The polynomial hash over the integers, without any wrap-around:
    [31 * a + c] per character. *)
Fixpoint poly_hash (a : Z) (str : string) : Z :=
  match str with
  | EmptyString => a
  | String b r => poly_hash (31 * a + Utils.charCode b)%Z r
  end.

(** Every time of the list is at least [delay] after the one before it,
    the first one after [last]: [t - last < delay] is false each time. *)
Fixpoint spaced (delay last : num) (l : list num) : Prop :=
  match l with
  | [] => True
  | t :: r => (t - last <? delay)%js = false /\ spaced delay t r
  end.

(** [l1] is [l2] with some elements left out. *)
Fixpoint sublist (l1 l2 : list num) : Prop :=
  match l1, l2 with
  | [], _ => True
  | _ :: _, [] => False
  | a :: r1, b :: r2 => (a = b /\ sublist r1 r2) \/ sublist l1 r2
  end.

(** [2 ^ 32] *)
Definition two32 : Z := 4294967296.

(** A number that is not NaN. *)
Definition is_number (a : num) : bool := (a === a)%js.

End UtilsSpec.

(** ** Vocabulary for the sprites and the session *)

Module SessionSpec.
Import Game.

(** The class invariant of a sprite: the centre is where the position and
    the size put it, and the speed is neither 0 nor NaN. *)
Definition sprite_inv (s : Sprite.t) : Prop :=
  SpriteSpec.centred s /\ Num.truthy (Sprite.speed s) = true.

(** [s'] is [s] after any number of calls of [move] with a zero horizontal
    axis: all that is ever done to a paddle. *)
Inductive paddle_moves : Sprite.t -> Sprite.t -> Prop :=
| pm_refl : forall s, paddle_moves s s
| pm_step : forall s s' ay m,
    paddle_moves s s' -> paddle_moves s (Sprite.move s' (Fin 0) ay m).

(** Size and bounds of a sprite. *)
Definition same_geometry (s s' : Sprite.t) : Prop :=
  Sprite.width s' = Sprite.width s /\ Sprite.height s' = Sprite.height s /\
  Sprite.bounds s' = Sprite.bounds s.

(** What one event of a session can and cannot do, apart from the ball's
    flight and the scores of player2:
    the configuration, the screen and the canvas offset stay;
    a second player who has joined stays;
    player1's score and both names stay, player2's score does not go down;
    each paddle is only moved, with a zero horizontal axis;
    the ball keeps its size and bounds;
    the phase does not go back to loading or to ready. *)
Definition session_frame (g g' : t) : Prop :=
  (settings g' = settings g /\ screen g' = screen g /\ offsetTop g' = offsetTop g) /\
  (in2_active (input2 g) = true -> in2_active (input2 g') = true) /\
  (Player.score (player1 g') = Player.score (player1 g) /\
   Player.name (player1 g') = Player.name (player1 g) /\
   Player.name (player2 g') = Player.name (player2 g) /\
   (Player.score (player2 g) <= Player.score (player2 g'))%Z) /\
  (paddle_moves (Player.base (player1 g)) (Player.base (player1 g')) /\
   paddle_moves (Player.base (player2 g)) (Player.base (player2 g'))) /\
  same_geometry (Ball.base (ball g)) (Ball.base (ball g')) /\
  ((current (state g') = st_loading -> current (state g) = st_loading) /\
   (current (state g') = st_ready -> current (state g) = st_ready)).

(** The paddle centre's distance below the pointer, [diffY] of [play()]. *)
Definition pointer_offset (g : t) (py0 : num) : num :=
  (py0 - offsetTop g - Sprite.y (Player.base (player1 g))
   - Sprite.height (Player.base (player1 g)) / Fin 2)%js.

End SessionSpec.

Module TickSpec.
Import Game Session.

(** The state in which [play()] runs its collision query: the winner check,
    the paddles' moves and the edge bounce are done. *)
Definition at_collision (g : t) : t :=
  bounce_edge (move_player2 (move_computer (move_player1 (check_winner g)))).

(** What holds of the paddles in every state of a session. *)
Definition paddles_ok (g : t) : Prop :=
  Player.name (player1 g) = player1_name /\
  Player.name (player2 g) = player2_name /\
  SessionSpec.sprite_inv (Player.base (player1 g)) /\
  SessionSpec.sprite_inv (Player.base (player2 g)) /\
  Sprite.speed (Player.base (player1 g)) = Fin 50 /\
  Sprite.speed (Player.base (player2 g)) = Fin 50 /\
  current (state g) <> st_loading.

(** The second player joins by pressing W before the game starts. *)
Definition joined_state : t := Scenario.after Scenario.start5 [KeyDown KeyW (Fin 0)].

Definition joined_trace : list Event :=
  [KeyUp KeyW (Fin 1); Click target_button (Fin 2); AnimationFrame (Fin 16)].

(** Two players.  The left paddle is lowered by 15 with the S key, and the
    ball, launched from the right, is carried onto it: at the end the ball
    overlaps the left paddle. *)
Definition catch_trace : list Event :=
  [KeyDown KeyW (Fin 0); KeyUp KeyW (Fin 0); Click target_button (Fin 0);
   KeyUp Space (Fin 0); AnimationFrame (Fin 10); AnimationFrame (Fin 330);
   KeyDown KeyS (Fin 331); AnimationFrame (Fin 340); KeyUp KeyS (Fin 341);
   AnimationFrame (Fin 350)].
Definition catch_state : t := Scenario.after Scenario.start5 catch_trace.

(** Two players.  The ball passes the left paddle and scores on the left
    bound; the left shift key launches it again from the left, and one frame
    carries it to its right bound. *)
Definition right_trace : list Event :=
  [KeyDown KeyW (Fin 0); KeyUp KeyW (Fin 0); Click target_button (Fin 0);
   KeyUp Space (Fin 0); AnimationFrame (Fin 1000); AnimationFrame (Fin 2000);
   AnimationFrame (Fin 3000); AnimationFrame (Fin 4000);
   KeyDown ShiftLeft (Fin 4500); AnimationFrame (Fin 5000)].
Definition right_state : t := Scenario.after Scenario.start5 right_trace.

(** The game is started and the mouse is at y = 600, 100 below the centre of
    the right paddle. *)
Definition pointer_state : t :=
  Scenario.after Scenario.start5 [Click target_button (Fin 0); MouseMove (Fin 600)].

(** The ball is launched from the right and the right paddle lowered a
    little with the arrow key: the ball overlaps the paddle it came from. *)
Definition bounce_trace : list Event :=
  [Click target_button (Fin 0); KeyUp Space (Fin 0); AnimationFrame (Fin 10);
   AnimationFrame (Fin 20); KeyDown ArrowDown (Fin 21); AnimationFrame (Fin 30);
   KeyUp ArrowDown (Fin 31)].
Definition bounce_state : t := Scenario.after Scenario.start5 bounce_trace.

End TickSpec.

(* ================================================================== *)
(** * Properties *)

(** Closed facts about concrete entities and sessions are settled by
    evaluation, one conjunct at a time. *)
Ltac by_evaluation :=
  repeat match goal with |- _ /\ _ => split end; vm_compute; reflexivity.

(** ** Comparisons on numbers *)

Section NumFacts.

Lemma ltb_Fin (p q : Q) : (Fin p <? Fin q)%js = true <-> p < q.
Proof.
  unfold Num.ltb. rewrite Qlt_alt.
  destruct (p ?= q); split; congruence.
Qed.

Lemma leb_Fin (p q : Q) : (Fin p <=? Fin q)%js = true <-> p <= q.
Proof.
  unfold Num.leb. rewrite Qle_alt.
  destruct (p ?= q); split; congruence.
Qed.

(** A number that takes part in a true comparison is not NaN, so it is
    below or equal to itself. *)
Lemma leb_true_refl (a b : num) :
  (a <=? b)%js = true -> (a <=? a)%js = true /\ (b <=? b)%js = true.
Proof.
  destruct a as [p| | |], b as [q| | |]; simpl; intros H;
    try discriminate; split; try reflexivity;
    apply leb_Fin; apply Qle_refl.
Qed.

Lemma ltb_asym (a b : num) : (a <? b)%js = true -> (b <? a)%js = false.
Proof.
  destruct a as [p| | |], b as [q| | |]; simpl; intros H;
    try discriminate; try reflexivity.
  apply ltb_Fin in H.
  destruct (q ?= p) eqn:E; try reflexivity.
  apply Qlt_alt in E. lra.
Qed.

Lemma ltb_not_seq (a b : num) : (a <? b)%js = true -> (a === b)%js = false.
Proof.
  destruct a as [p| | |], b as [q| | |]; simpl; intros H;
    try discriminate; try reflexivity.
  apply ltb_Fin in H.
  destruct (Qeq_bool p q) eqn:E; [|reflexivity].
  apply Qeq_bool_iff in E. lra.
Qed.

Lemma seq_sym (a b : num) : (a === b)%js = (b === a)%js.
Proof.
  destruct a as [p| | |], b as [q| | |]; simpl; try reflexivity.
  apply Qeq_bool_comm.
Qed.

Lemma seq_not_ltb (a b : num) :
  (a === b)%js = true -> (a <? b)%js = false /\ (b <? a)%js = false.
Proof.
  intros H. split.
  - destruct (Num.ltb a b) eqn:E; [|reflexivity].
    apply ltb_not_seq in E. congruence.
  - destruct (Num.ltb b a) eqn:E; [|reflexivity].
    apply ltb_not_seq in E. rewrite seq_sym in E. congruence.
Qed.

(** NaN bounds switch [boundBy] off. *)
Lemma boundBy_NaN (n : num) : boundBy n NaN NaN = n.
Proof. destruct n; reflexivity. Qed.

End NumFacts.

(** ** Sprite: clamping, direction, centre *)

Module SpriteFacts.
Import Sprite SpriteSpec.

Lemma move_unfold (s : t) (ax ay m : num) :
  move s ax ay m =
  let s1 := setX s (clampX s (candidateX s ax m)) in
  let s2 := setY s1 (clampY s (candidateY s ay m)) in
  let s3 := if (ax <? Fin 0)%js then set_direction s2 dir_right else s2 in
  if (ax >? Fin 0)%js then set_direction s3 dir_left else s3.
Proof.
  unfold move, clampX, clampY, maxX, maxY.
  set (dx := candidateX s ax m). set (dy := candidateY s ay m).
  destruct ((dx >=? left (bounds s)) && (dx <=? right (bounds s) - width s))%js%bool;
    cbn [setX bounds height width];
    destruct ((dy >=? top (bounds s)) && (dy <=? bottom (bounds s) - height s))%js%bool;
    reflexivity.
Qed.

Lemma move_x (s : t) (ax ay m : num) :
  x (move s ax ay m) = clampX s (candidateX s ax m).
Proof.
  rewrite move_unfold. cbv zeta.
  destruct (ax <? Fin 0)%js, (ax >? Fin 0)%js; reflexivity.
Qed.

Lemma move_y (s : t) (ax ay m : num) :
  y (move s ax ay m) = clampY s (candidateY s ay m).
Proof.
  rewrite move_unfold. cbv zeta.
  destruct (ax <? Fin 0)%js, (ax >? Fin 0)%js; reflexivity.
Qed.

Lemma move_frame (s : t) (ax ay m : num) :
  bounds (move s ax ay m) = bounds s /\
  width (move s ax ay m) = width s /\
  height (move s ax ay m) = height s /\
  speed (move s ax ay m) = speed s.
Proof.
  rewrite move_unfold. cbv zeta.
  destruct (ax <? Fin 0)%js, (ax >? Fin 0)%js; repeat split; reflexivity.
Qed.

Lemma clamp_range (lo hi c : num) :
  (lo <=? hi)%js = true ->
  let r := if ((c >=? lo) && (c <=? hi))%js%bool then c
           else if (c <? lo)%js then lo else hi in
  (lo <=? r)%js = true /\ (r <=? hi)%js = true.
Proof.
  intros Hne. cbv zeta.
  destruct (leb_true_refl _ _ Hne) as [Hlo Hhi].
  destruct ((c >=? lo) && (c <=? hi))%js%bool eqn:E.
  - apply andb_prop in E. exact E.
  - destruct (c <? lo)%js; split; assumption.
Qed.

Lemma move_centred (s : t) (ax ay m : num) : centred (move s ax ay m).
Proof.
  rewrite move_unfold. cbv zeta. unfold centred.
  destruct (ax <? Fin 0)%js, (ax >? Fin 0)%js; split; reflexivity.
Qed.

(** C1, as the code has it.  For every sprite that fits between its bounds
    (left <= right - width and top <= bottom - height), every axis pair and
    every scale, NaN and the infinities included, [move] leaves x in
    [[left, right - width]] and y in [[top, bottom - height]]; a candidate
    below the low edge is replaced by that edge, one above the high edge by
    the high edge, and one inside the range is taken as it is. *)
Theorem C1_move_clamps_into_bounds (s : t) (ax ay m : num) :
  fitsX s = true -> fitsY s = true ->
  let s' := move s ax ay m in
  let dx := candidateX s ax m in
  let dy := candidateY s ay m in
  in_bounds s' = true /\
  ((dx <? left (bounds s))%js = true -> x s' = left (bounds s)) /\
  ((dx >? maxX s)%js = true -> x s' = maxX s) /\
  ((left (bounds s) <=? dx)%js = true -> (dx <=? maxX s)%js = true -> x s' = dx) /\
  ((dy <? top (bounds s))%js = true -> y s' = top (bounds s)) /\
  ((dy >? maxY s)%js = true -> y s' = maxY s) /\
  ((top (bounds s) <=? dy)%js = true -> (dy <=? maxY s)%js = true -> y s' = dy).
Proof.
  intros HX HY. cbv zeta.
  destruct (move_frame s ax ay m) as (Hb & Hw & Hh & _).
  unfold in_bounds, in_rangeX, in_rangeY, maxX, maxY.
  rewrite Hb, Hw, Hh, move_x, move_y.
  unfold fitsX, fitsY, maxX, maxY in HX, HY.
  pose proof (clamp_range _ _ (candidateX s ax m) HX) as [X1 X2].
  pose proof (clamp_range _ _ (candidateY s ay m) HY) as [Y1 Y2].
  unfold clampX, clampY, maxX, maxY.
  split; [rewrite X1, X2, Y1, Y2; reflexivity|].
  unfold Num.geb, Num.gtb.
  repeat split.
  - intros H. pose proof (ltb_asym _ _ H) as H'.
    destruct (left (bounds s) <=? candidateX s ax m)%js eqn:E.
    + exfalso. rewrite H in *. clear - H E.
      destruct (candidateX s ax m) as [p| | |], (left (bounds s)) as [q| | |];
        simpl in *; try discriminate.
      apply ltb_Fin in H. apply leb_Fin in E. lra.
    + simpl. rewrite H. reflexivity.
  - intros H.
    destruct (candidateX s ax m <=? right (bounds s) - width s)%js eqn:E.
    + exfalso. clear - H E.
      destruct (candidateX s ax m) as [p| | |], (right (bounds s) - width s)%js as [q| | |];
        simpl in *; try discriminate.
      apply ltb_Fin in H. apply leb_Fin in E. lra.
    + rewrite andb_false_r.
      destruct (candidateX s ax m <? left (bounds s))%js eqn:L; [|reflexivity].
      exfalso. clear - H L HX.
      destruct (candidateX s ax m) as [p| | |], (right (bounds s) - width s)%js as [q| | |],
        (left (bounds s)) as [r| | |]; simpl in *; try discriminate.
      apply ltb_Fin in H. apply ltb_Fin in L. apply leb_Fin in HX. lra.
  - intros H1 H2. rewrite H1, H2. reflexivity.
  - intros H.
    destruct (top (bounds s) <=? candidateY s ay m)%js eqn:E.
    + exfalso. clear - H E.
      destruct (candidateY s ay m) as [p| | |], (top (bounds s)) as [q| | |];
        simpl in *; try discriminate.
      apply ltb_Fin in H. apply leb_Fin in E. lra.
    + simpl. rewrite H. reflexivity.
  - intros H.
    destruct (candidateY s ay m <=? bottom (bounds s) - height s)%js eqn:E.
    + exfalso. clear - H E.
      destruct (candidateY s ay m) as [p| | |], (bottom (bounds s) - height s)%js as [q| | |];
        simpl in *; try discriminate.
      apply ltb_Fin in H. apply leb_Fin in E. lra.
    + rewrite andb_false_r.
      destruct (candidateY s ay m <? top (bounds s))%js eqn:L; [|reflexivity].
      exfalso. clear - H L HY.
      destruct (candidateY s ay m) as [p| | |], (bottom (bounds s) - height s)%js as [q| | |],
        (top (bounds s)) as [r| | |]; simpl in *; try discriminate.
      apply ltb_Fin in H. apply ltb_Fin in L. apply leb_Fin in HY. lra.
  - intros H1 H2. rewrite H1, H2. reflexivity.
Qed.

Lemma C1_move_clamps_into_bounds_witness :
  fitsX Samples.small_sprite = true /\ fitsY Samples.small_sprite = true /\
  in_bounds (move Samples.small_sprite (Fin (-1)) (Fin 40) (Fin 1)) = true.
Proof.
  split; [reflexivity|]. split; [reflexivity|].
  apply (proj1 (C1_move_clamps_into_bounds Samples.small_sprite (Fin (-1)) (Fin 40) (Fin 1)
                  eq_refl eq_refl)).
Defined.

(** C1 as stated, for every entity, fails: a sprite wider than the gap
    between its left and right bounds (bounds that still satisfy right > left
    and bottom > top) is put at right - width, which is left of the left
    bound, so no x can be in the range. *)
Lemma C1_wide_sprite_leaves_bounds :
  (left (bounds Samples.wide_sprite) <? right (bounds Samples.wide_sprite))%js = true /\
  (top (bounds Samples.wide_sprite) <? bottom (bounds Samples.wide_sprite))%js = true /\
  x (move Samples.wide_sprite (Fin 0) (Fin 0) (Fin 1)) = Fin (-5) /\
  (left (bounds Samples.wide_sprite)
     <=? x (move Samples.wide_sprite (Fin 0) (Fin 0) (Fin 1)))%js = false /\
  in_bounds (move Samples.wide_sprite (Fin 0) (Fin 0) (Fin 1)) = false.
Proof. repeat split; reflexivity. Qed.

(** C10.  After [move(axisX, axisY, scale)] the direction is ['right'] when
    axisX < 0, ['left'] when axisX > 0, and what it was before when
    axisX is 0. *)
Theorem C10_move_sets_direction (s : t) (ax ay m : num) :
  ((ax <? Fin 0)%js = true -> direction (move s ax ay m) = dir_right) /\
  ((ax >? Fin 0)%js = true -> direction (move s ax ay m) = dir_left) /\
  ((ax === Fin 0)%js = true -> direction (move s ax ay m) = direction s).
Proof.
  rewrite move_unfold. cbv zeta. unfold Num.gtb.
  repeat split; intros H.
  - rewrite H, (ltb_asym _ _ H). reflexivity.
  - rewrite H, (ltb_asym _ _ H). reflexivity.
  - destruct (seq_not_ltb _ _ H) as [H1 H2]. rewrite H1, H2. reflexivity.
Qed.

Lemma C10_move_sets_direction_witness :
  ((Fin (-1) <? Fin 0)%js = true /\
   direction (move Samples.small_sprite (Fin (-1)) (Fin 0) (Fin 1)) = dir_right) /\
  ((Fin 1 >? Fin 0)%js = true /\
   direction (move Samples.small_sprite (Fin 1) (Fin 0) (Fin 1)) = dir_left) /\
  ((Fin 0 === Fin 0)%js = true /\
   direction (move (set_direction Samples.small_sprite dir_left) (Fin 0) (Fin 1) (Fin 1))
   = dir_left).
Proof.
  split; [|split]; (split; [reflexivity|]).
  - apply (proj1 (C10_move_sets_direction
                    Samples.small_sprite (Fin (-1)) (Fin 0) (Fin 1))). reflexivity.
  - apply (proj1 (proj2 (C10_move_sets_direction
                    Samples.small_sprite (Fin 1) (Fin 0) (Fin 1)))). reflexivity.
  - apply (proj2 (proj2 (C10_move_sets_direction
                    (set_direction Samples.small_sprite dir_left) (Fin 0) (Fin 1) (Fin 1)))).
    reflexivity.
Defined.

End SpriteFacts.

(** ** Ball: launch, stop, collision *)

Module BallFacts.
Import SpriteSpec.

(** C7.  [stop()] clears [launched] and [dx] and leaves [dy] and the whole
    sprite part (position, previous position, centre, velocity, size, speed,
    direction, bounds) as they were; and on every ball that is not launched
    [move(scale)] returns the ball unchanged. *)
Theorem C7_stop_then_move_is_idle (b : Ball.t) (m : num) :
  (Ball.launched (Ball.stop b) = false /\
   Ball.dx (Ball.stop b) = Fin 0 /\
   Ball.dy (Ball.stop b) = Ball.dy b /\
   Ball.base (Ball.stop b) = Ball.base b) /\
  (Ball.launched b = false -> Ball.move b m = b) /\
  Ball.move (Ball.stop b) m = Ball.stop b.
Proof.
  split; [repeat split|]. split.
  - intros H. unfold Ball.move. rewrite H. reflexivity.
  - reflexivity.
Qed.

Lemma C7_stop_then_move_is_idle_witness :
  Ball.launched Samples.resting_ball = false /\
  Ball.move Samples.resting_ball (Fin 3) = Samples.resting_ball.
Proof.
  split; [reflexivity|].
  apply (proj1 (proj2 (C7_stop_then_move_is_idle Samples.resting_ball (Fin 3)))).
  reflexivity.
Defined.

(** C8, as the code has it.  [launch] has no guard.  Without a delay it
    stops the ball and then, whatever [dx] is, sets [launched], stores [dx]
    and adds [(offset + width) * dx] to x, leaving [dy], y and the timers
    alone.  With [dx] zero, a finite x, and an offset and a width that are
    finite and no larger than [2^1022] in magnitude, so that their sum cannot
    overflow, the new x is numerically the old one and the ball is launched
    with a zero direction; with [dx] undefined (NaN) the ball is launched and
    its x becomes NaN. *)
Theorem C8_launch_has_no_guard (b : Ball.t) (dx0 offset : num) :
  let r := Ball.launch b None dx0 offset in
  (snd r = None /\
   Ball.launched (fst r) = true /\
   Ball.dx (fst r) = dx0 /\
   Ball.dy (fst r) = Ball.dy b /\
   Sprite.y (Ball.base (fst r)) = Sprite.y (Ball.base b) /\
   Sprite.x (Ball.base (fst r))
   = (Sprite.x (Ball.base b) + (offset + Sprite.width (Ball.base b)) * dx0)%js) /\
  (forall p : Q,
      Sprite.x (Ball.base b) = Fin p ->
      sum_safe offset = true -> sum_safe (Sprite.width (Ball.base b)) = true ->
      dx0 = Fin 0 ->
      Ball.launched (fst r) = true /\ Ball.dx (fst r) = Fin 0 /\
      (Sprite.x (Ball.base (fst r)) === Sprite.x (Ball.base b))%js = true) /\
  (dx0 = NaN -> Ball.launched (fst r) = true /\ Sprite.x (Ball.base (fst r)) = NaN).
Proof.
  cbv zeta. split; [repeat split|]. split.
  - intros p Hx Ho Hw Hd. split; [reflexivity|]. split; [exact Hd|].
    unfold Ball.launch. simpl.
    destruct offset as [o| | |]; try discriminate Ho.
    destruct (Sprite.width (Ball.base b)) as [w| | |]; try discriminate Hw.
    rewrite Hx, Hd. simpl. apply Qeq_bool_iff. ring.
  - intros ->. split; [reflexivity|]. unfold Ball.launch. simpl.
    destruct (Sprite.x (Ball.base b)), (offset + Sprite.width (Ball.base b))%js; reflexivity.
Qed.

Lemma C8_launch_has_no_guard_witness :
  Ball.launched Samples.resting_ball = false /\
  sum_safe (Fin 20) = true /\
  sum_safe (Sprite.width (Ball.base Samples.resting_ball)) = true /\
  Ball.launched (fst (Ball.launch Samples.resting_ball None (Fin 0) (Fin 20))) = true /\
  (Sprite.x (Ball.base (fst (Ball.launch Samples.resting_ball None (Fin 0) (Fin 20))))
   === Sprite.x (Ball.base Samples.resting_ball))%js = true /\
  Sprite.x (Ball.base (fst (Ball.launch Samples.resting_ball None NaN (Fin 20)))) = NaN.
Proof.
  assert (S1 : sum_safe (Fin 20) = true) by (vm_compute; reflexivity).
  assert (S2 : sum_safe (Sprite.width (Ball.base Samples.resting_ball)) = true)
    by (vm_compute; reflexivity).
  split; [reflexivity|]. split; [exact S1|]. split; [exact S2|]. split; [|split].
  - apply (proj1 (C8_launch_has_no_guard Samples.resting_ball (Fin 0) (Fin 20))).
  - apply (proj1 (proj2 (C8_launch_has_no_guard Samples.resting_ball (Fin 0) (Fin 20)))
             100 eq_refl S1 S2 eq_refl).
  - apply (proj2 (proj2 (C8_launch_has_no_guard Samples.resting_ball NaN (Fin 20)))).
    reflexivity.
Defined.

(** C8 as stated fails: [launch] with a zero [dx] turns a stopped ball into
    a launched one, and with an undefined [dx] it also loses the position. *)
Lemma C8_zero_direction_launches :
  Ball.launched Samples.resting_ball = false /\
  Ball.launched (fst (Ball.launch Samples.resting_ball None (Fin 0) (Fin 20))) = true /\
  Ball.dx (fst (Ball.launch Samples.resting_ball None (Fin 0) (Fin 20))) = Fin 0 /\
  Sprite.x (Ball.base Samples.resting_ball) = Fin 100 /\
  Sprite.x (Ball.base (fst (Ball.launch Samples.resting_ball None NaN (Fin 20)))) = NaN.
Proof. repeat split; reflexivity. Qed.

(** C9 at the launch jump.  [launch] writes [this.x] directly instead of
    going through [setX]: the ball that rested at x = 100 with centre 105 is
    put at x = 70 and keeps the centre 105, where x + width/2 is 75. *)
Theorem C9_launch_leaves_centre_stale :
  let b := fst (Ball.launch Samples.resting_ball None (Fin (-1)) (Fin 20)) in
  centredb (Ball.base Samples.resting_ball) = true /\
  (Sprite.x (Ball.base b) === Fin 70)%js = true /\
  (Sprite.cx (Ball.base b) === Fin 105)%js = true /\
  (Sprite.x (Ball.base b) + Sprite.width (Ball.base b) / Fin 2 === Fin 75)%js = true /\
  centredb (Ball.base b) = false.
Proof. cbv zeta. by_evaluation. Qed.

(** The sibling paths do recompute the centre. *)
Lemma setters_recompute_centre (s : Sprite.t) (v ax ay m : num) :
  Sprite.cx (Sprite.setX s v) = (v + Sprite.width s / Fin 2)%js /\
  Sprite.cy (Sprite.setY s v) = (v + Sprite.height s / Fin 2)%js /\
  centred (Sprite.move s ax ay m).
Proof.
  split; [reflexivity|]. split; [reflexivity|]. apply SpriteFacts.move_centred.
Qed.

Lemma find_first {A : Type} (f : A -> bool) (l : list A) (a : A) :
  List.find f l = Some a <->
  exists l1 l2, l = l1 ++ a :: l2 /\ f a = true /\ Forall (fun q => f q = false) l1.
Proof.
  induction l as [|h tl IH]; simpl.
  - split; [discriminate|]. intros (l1 & l2 & E & _). destruct l1; discriminate.
  - destruct (f h) eqn:Fh.
    + split.
      * intros [= <-]. exists [], tl. repeat split; auto.
      * intros (l1 & l2 & E & Fa & Hl1).
        destruct l1 as [|h1 l1]; simpl in E; injection E as -> E.
        -- reflexivity.
        -- inversion Hl1; subst. congruence.
    + rewrite IH. split.
      * intros (l1 & l2 & -> & Fa & Hl1). exists (h :: l1), l2.
        repeat split; auto.
      * intros (l1 & l2 & E & Fa & Hl1).
        destruct l1 as [|h1 l1]; simpl in E; injection E as -> E.
        -- congruence.
        -- inversion Hl1; subst. exists l1, l2. repeat split; auto.
Qed.

Lemma find_none {A : Type} (f : A -> bool) (l : list A) :
  List.find f l = None <-> Forall (fun q => f q = false) l.
Proof.
  induction l as [|h tl IH]; simpl.
  - split; auto.
  - destruct (f h) eqn:Fh.
    + split; [discriminate|]. intros H. inversion H; subst. congruence.
    + rewrite IH. split; intros H; [constructor; assumption|inversion H; assumption].
Qed.

(** C6.  [collidesWith(paddle)] is true exactly when
    paddle.y < ball.cy < paddle.y + paddle.height and
    |paddle.cx - ball.cx| < (paddle.width + ball.width) / 2;
    [collisionsWith(list)] is the first paddle of the list that passes the
    test (every paddle before it fails), and nothing exactly when every
    paddle fails. *)
Theorem C6_collision_queries (b : Ball.t) :
  (forall e : Sprite.t,
      Ball.collidesWith b e = true <->
      (Sprite.y e <? Sprite.cy (Ball.base b))%js = true /\
      (Sprite.cy (Ball.base b) <? Sprite.y e + Sprite.height e)%js = true /\
      (Num.abs (Sprite.cx e - Sprite.cx (Ball.base b))
       <? (Sprite.width e + Sprite.width (Ball.base b)) / Fin 2)%js = true) /\
  (forall (l : list Player.t) (p : Player.t),
      Ball.collisionsWith b l = Some p <->
      exists l1 l2,
        l = l1 ++ p :: l2 /\
        Ball.collidesWith b (Player.base p) = true /\
        Forall (fun q => Ball.collidesWith b (Player.base q) = false) l1) /\
  (forall l : list Player.t,
      Ball.collisionsWith b l = None <->
      Forall (fun q => Ball.collidesWith b (Player.base q) = false) l).
Proof.
  split; [|split].
  - intros e. unfold Ball.collidesWith, Num.gtb.
    rewrite !andb_true_iff. tauto.
  - intros l p. unfold Ball.collisionsWith.
    apply (find_first (fun ent => Ball.collidesWith b (Player.base ent))).
  - intros l. unfold Ball.collisionsWith.
    apply (find_none (fun ent => Ball.collidesWith b (Player.base ent))).
Qed.

(** Scenario 2 of the spec, run on the code. *)
Example scenario2_collides :
  Ball.collidesWith Samples.ball_400 (Player.base Samples.paddle_400) = true /\
  Ball.collidesWith Samples.ball_500 (Player.base Samples.paddle_400) = false /\
  Ball.collisionsWith Samples.ball_400 [Samples.paddle_far; Samples.paddle_400]
  = Some Samples.paddle_400 /\
  Ball.collisionsWith Samples.ball_500 [Samples.paddle_far; Samples.paddle_400] = None.
Proof. repeat split; reflexivity. Qed.

End BallFacts.

(** ** The tick: what each block of [play()] leaves alone *)

Module GameFacts.
Import Game GameSpec.

(** [this.state] is written by the winner check only. *)
Lemma state_move_player1 (g : t) : state (move_player1 g) = state g.
Proof.
  unfold move_player1, with_player1.
  destruct (in_current (input g)) eqn:E; cbn [input]; rewrite ?E; cbn [input]; rewrite ?E;
    reflexivity.
Qed.

Lemma state_move_computer (g : t) : state (move_computer g) = state g.
Proof. unfold move_computer. destruct (computer_active g); reflexivity. Qed.

Lemma state_move_player2 (g : t) : state (move_player2 g) = state g.
Proof. unfold move_player2. destruct (in2_active (input2 g)); reflexivity. Qed.

Lemma state_bounce_edge (g : t) : state (bounce_edge g) = state g.
Proof. unfold bounce_edge. destruct (_ || _)%bool; reflexivity. Qed.

Lemma state_bounce_player1 (c : option PlayerName) (g : t) :
  state (bounce_player1 c g) = state g.
Proof. destruct c as [[|]|]; reflexivity. Qed.

Lemma state_bounce_player2 (c : option PlayerName) (g : t) :
  state (bounce_player2 c g) = state g.
Proof. destruct c as [[|]|]; reflexivity. Qed.

Lemma state_score_left (g : t) : state (score_left g) = state g.
Proof.
  unfold score_left. destruct (touches_left g); [|reflexivity].
  cbn. destruct (in2_active (input2 g)); reflexivity.
Qed.

Lemma state_score_right (g : t) : state (score_right g) = state g.
Proof. unfold score_right. destruct (touches_right g); reflexivity. Qed.

(** [play_block] and [before_scoring], with their [let]s unfolded. *)
Lemma play_block_eq (g : t) :
  play_block g = move_ball (score_right (score_left (before_scoring g))).
Proof. reflexivity. Qed.

Lemma before_scoring_eq (g : t) :
  before_scoring g =
  bounce_player2
    (collided_name (bounce_edge (move_player2 (move_computer (move_player1 (check_winner g))))))
    (bounce_player1
       (collided_name (bounce_edge (move_player2 (move_computer (move_player1 (check_winner g))))))
       (bounce_edge (move_player2 (move_computer (move_player1 (check_winner g)))))).
Proof. reflexivity. Qed.

Lemma state_move_ball (g : t) : state (move_ball g) = state g.
Proof. reflexivity. Qed.

Lemma state_requestFrame (g : t) (now : num) (r : bool) :
  state (requestFrame g now r) = state g.
Proof. reflexivity. Qed.

Lemma ball_move_ball (g : t) : ball (move_ball g) = Ball.move (ball g) (scale (frame g)).
Proof. reflexivity. Qed.

Lemma player1_move_ball (g : t) : player1 (move_ball g) = player1 g.
Proof. reflexivity. Qed.

Lemma requestFrame_keeps (g : t) (now : num) (r : bool) :
  ball (requestFrame g now r) = ball g /\
  timers (requestFrame g now r) = timers g /\
  player1 (requestFrame g now r) = player1 g /\
  player2 (requestFrame g now r) = player2 g.
Proof. split; [|split; [|split]]; reflexivity. Qed.

Lemma play_block_state (g : t) : state (play_block g) = state (check_winner g).
Proof.
  rewrite play_block_eq, before_scoring_eq.
  rewrite state_move_ball, state_score_right, state_score_left, state_bounce_player2,
    state_bounce_player1, state_bounce_edge, state_move_player2,
    state_move_computer, state_move_player1.
  reflexivity.
Qed.

(** [play()] when the tick starts in state play. *)
Lemma play_in_play (g : t) (now : num) :
  current (state g) = st_play ->
  play g now = requestFrame (play_block g) now false.
Proof.
  intros H. unfold play, ready_to_play, game_play. rewrite H. cbn [Phase_eqb andb].
  rewrite H. reflexivity.
Qed.

Lemma play_state (g : t) (now : num) :
  current (state g) = st_play ->
  state (play g now) = state (check_winner g).
Proof.
  intros H. rewrite (play_in_play g now H).
  rewrite state_requestFrame. apply play_block_state.
Qed.

(** C3, as the code has it.  On a tick that starts in state play, the two
    checks run one after the other and the second one is not skipped when
    the first one fired: if player2's score equals winScore the tick ends in
    win-player2, also when player1's score equals winScore too (then with
    win-player1 recorded as the previous state); if only player1's score
    equals winScore the tick ends in win-player1; if neither does, the state
    stays play. *)
Theorem C3_winner_check (g : t) (now : num) :
  current (state g) = st_play ->
  let w := winScore (state g) in
  let s1 := (Num.of_Z (Player.score (player1 g)) === w)%js in
  let s2 := (Num.of_Z (Player.score (player2 g)) === w)%js in
  let g' := play g now in
  (s2 = true -> current (state g') = st_win_player2) /\
  (s1 = true -> s2 = true -> prev (state g') = Some st_win_player1) /\
  (s1 = true -> s2 = false ->
   current (state g') = st_win_player1 /\ prev (state g') = Some st_play) /\
  (s1 = false -> s2 = false -> current (state g') = st_play).
Proof.
  intros H. cbv zeta. rewrite (play_state g now H).
  unfold check_winner.
  destruct (Num.of_Z (Player.score (player1 g)) === winScore (state g))%js eqn:E1;
    cbn [setState_current with_state state winScore player2 current prev];
    destruct (Num.of_Z (Player.score (player2 g)) === winScore (state g))%js eqn:E2;
    cbn [setState_current with_state state winScore player2 current prev];
    repeat split; intros; try discriminate; try reflexivity; try assumption.
  rewrite H. reflexivity.
Qed.

Lemma C3_winner_check_witness :
  current (state Scenario.tie_state) = st_play /\
  (Num.of_Z (Player.score (player2 Scenario.tie_state))
   === winScore (state Scenario.tie_state))%js = true /\
  current (state (play Scenario.tie_state (Fin 16))) = st_win_player2.
Proof.
  split; [reflexivity|]. split; [reflexivity|].
  apply (proj1 (C3_winner_check Scenario.tie_state (Fin 16) eq_refl)).
  reflexivity.
Defined.

(** C3 as stated fails at the tie.  With a win score of 0 both scores
    equal it on the first tick of play; that tick ends in win-player2, not
    in win-player1. *)
Lemma C3_tie_goes_to_player2 :
  Session.run Scenario.start0 Scenario.tie_trace = Some Scenario.tie_state /\
  current (state Scenario.tie_state) = st_play /\
  (Num.of_Z (Player.score (player1 Scenario.tie_state))
   === winScore (state Scenario.tie_state))%js = true /\
  (Num.of_Z (Player.score (player2 Scenario.tie_state))
   === winScore (state Scenario.tie_state))%js = true /\
  current (state (play Scenario.tie_state (Fin 16))) = st_win_player2 /\
  current (state (play Scenario.tie_state (Fin 16))) <> st_win_player1.
Proof.
  repeat match goal with |- _ /\ _ => split end; try (vm_compute; reflexivity).
  intros H. vm_compute in H. discriminate H.
Qed.

(** *** The computer opponent *)

(** The limit the code computes is NaN, whatever the settings hold: it
    parses the settings object, not one of its fields. *)
Lemma difficulty_is_NaN (cfg : Settings.t) :
  ParseInt.parseInt (Settings.toString cfg) = NaN.
Proof. reflexivity. Qed.

(** So the axis handed to [move] is [dy2] as computed, never limited. *)
Lemma computer_axis_unclamped (g : t) : computer_axis g = raw_axis g.
Proof. unfold computer_axis. rewrite difficulty_is_NaN. apply boundBy_NaN. Qed.

(** C4 on the code.  In the session [near_trace] (difficulty 1, so the
    limit of the spec is 1/2) the computer is active with the ball at
    x = 85; [dy2] is about -1.1, the spec's axis is -1/2, and the code moves
    the paddle with the unlimited value: after the tick the paddle is at
    y = 0, where the limited axis would have taken it 225 up, short of the
    top. *)
Theorem C4_axis_is_not_limited :
  Session.run Scenario.start5 Scenario.near_trace = Some Scenario.near_state /\
  computer_active Scenario.near_state = true /\
  (Sprite.x (Ball.base (ball Scenario.near_state)) === Fin 85)%js = true /\
  (computer_axis Scenario.near_state <? Fin (-11 # 10))%js = true /\
  (spec_computer_axis Scenario.near_state === Fin (-1 # 2))%js = true /\
  (computer_axis Scenario.near_state === spec_computer_axis Scenario.near_state)%js = false /\
  (Sprite.y (Player.base (player2 (play Scenario.near_state (Fin 1200)))) === Fin 0)%js = true /\
  (Sprite.y (Player.base
     (Player.move (player2 Scenario.near_state) (Fin 0)
        (spec_computer_axis Scenario.near_state) (scale (frame Scenario.near_state))))
   >? Fin 200)%js = true.
Proof. by_evaluation. Qed.

(** *** Frame conditions of the blocks before the scoring tests *)

Lemma tick_frame_refl (g : t) : tick_frame g g.
Proof. repeat split. Qed.

Lemma tick_frame_trans (g1 g2 g3 : t) :
  tick_frame g1 g2 -> tick_frame g2 g3 -> tick_frame g1 g3.
Proof.
  unfold tick_frame.
  intros (A1&A2&A3&A4&A5&A6&A7&A8&A9) (B1&B2&B3&B4&B5&B6&B7&B8&B9).
  repeat split; congruence.
Qed.

Lemma player_move_width (p : Player.t) (ax ay m : num) :
  Sprite.width (Player.base (Player.move p ax ay m)) = Sprite.width (Player.base p).
Proof. apply (SpriteFacts.move_frame (Player.base p) ax ay m). Qed.

Lemma frame_check_winner (g : t) : tick_frame g (check_winner g).
Proof.
  unfold check_winner.
  destruct (Num.of_Z (Player.score (player1 g)) === winScore (state g))%js;
    cbn [setState_current with_state state winScore player2];
    destruct (Num.of_Z (Player.score (player2 g)) === winScore (state g))%js;
    repeat split.
Qed.

Lemma frame_move_player1 (g : t) : tick_frame g (move_player1 g).
Proof.
  unfold move_player1, with_player1.
  destruct (in_current (input g)) eqn:E; cbn [input]; rewrite ?E; cbn [input]; rewrite ?E;
    repeat split.
Qed.

Lemma frame_move_computer (g : t) : tick_frame g (move_computer g).
Proof.
  unfold move_computer. destruct (computer_active g); [|apply tick_frame_refl].
  repeat split. apply player_move_width.
Qed.

Lemma frame_move_player2 (g : t) : tick_frame g (move_player2 g).
Proof.
  unfold move_player2. destruct (in2_active (input2 g)); [|apply tick_frame_refl].
  repeat split. apply player_move_width.
Qed.

Lemma frame_bounce_edge (g : t) : tick_frame g (bounce_edge g).
Proof. unfold bounce_edge. destruct (_ || _)%bool; repeat split. Qed.

Lemma frame_bounce_player1 (c : option PlayerName) (g : t) :
  tick_frame g (bounce_player1 c g).
Proof. destruct c as [[|]|]; repeat split. Qed.

Lemma frame_bounce_player2 (c : option PlayerName) (g : t) :
  tick_frame g (bounce_player2 c g).
Proof. destruct c as [[|]|]; repeat split. Qed.

Lemma frame_before_scoring (g : t) : tick_frame g (before_scoring g).
Proof.
  unfold before_scoring.
  eapply tick_frame_trans; [apply frame_check_winner|].
  eapply tick_frame_trans; [apply frame_move_player1|].
  eapply tick_frame_trans; [apply frame_move_computer|].
  eapply tick_frame_trans; [apply frame_move_player2|].
  eapply tick_frame_trans; [apply frame_bounce_edge|].
  eapply tick_frame_trans; [apply frame_bounce_player1|].
  apply frame_bounce_player2.
Qed.

(** The blocks up to the edge bounce leave the timers and the ball's
    position and launch flag alone. *)
Lemma ball_check_winner (g : t) :
  ball (check_winner g) = ball g /\ timers (check_winner g) = timers g.
Proof.
  unfold check_winner.
  destruct (Num.of_Z (Player.score (player1 g)) === winScore (state g))%js;
    cbn [setState_current with_state state winScore player2];
    destruct (Num.of_Z (Player.score (player2 g)) === winScore (state g))%js;
    split; reflexivity.
Qed.

Lemma ball_move_player1 (g : t) :
  ball (move_player1 g) = ball g /\ timers (move_player1 g) = timers g.
Proof.
  unfold move_player1, with_player1.
  destruct (in_current (input g)) eqn:E; cbn [input]; rewrite ?E; cbn [input]; rewrite ?E;
    split; reflexivity.
Qed.

Lemma ball_move_computer (g : t) :
  ball (move_computer g) = ball g /\ timers (move_computer g) = timers g.
Proof. unfold move_computer. destruct (computer_active g); split; reflexivity. Qed.

Lemma ball_move_player2 (g : t) :
  ball (move_player2 g) = ball g /\ timers (move_player2 g) = timers g.
Proof. unfold move_player2. destruct (in2_active (input2 g)); split; reflexivity. Qed.

Lemma ball_bounce_edge (g : t) :
  Ball.base (ball (bounce_edge g)) = Ball.base (ball g) /\
  Ball.launched (ball (bounce_edge g)) = Ball.launched (ball g) /\
  timers (bounce_edge g) = timers g /\
  (Ball.dy (ball (bounce_edge g)) = Ball.dy (ball g) \/
   Ball.dy (ball (bounce_edge g)) = (- Ball.dy (ball g))%js).
Proof.
  unfold bounce_edge. destruct (_ || _)%bool; repeat split; auto.
Qed.

Lemma ball_bounce_player1 (c : option PlayerName) (g : t) :
  Ball.launched (ball (bounce_player1 c g)) = Ball.launched (ball g) /\
  Ball.dy (ball (bounce_player1 c g)) = Ball.dy (ball g) /\
  timers (bounce_player1 c g) = timers g.
Proof. destruct c as [[|]|]; repeat split. Qed.

Lemma ball_bounce_player2 (c : option PlayerName) (g : t) :
  Ball.dy (ball (bounce_player2 c g)) = Ball.dy (ball g) /\
  (Ball.launched (ball (bounce_player2 c g)) = true ->
   timers (bounce_player2 c g) = timers g).
Proof. destruct c as [[|]|]; split; try reflexivity; discriminate. Qed.

(** A tick whose ball is still launched at the scoring tests has scheduled
    nothing so far. *)
Lemma timers_before_scoring (g : t) :
  Ball.launched (ball (before_scoring g)) = true ->
  timers (before_scoring g) = timers g.
Proof.
  unfold before_scoring. intros H.
  rewrite (proj2 (ball_bounce_player2 _ _) H).
  rewrite (proj2 (proj2 (ball_bounce_player1 _ _))).
  rewrite (proj1 (proj2 (proj2 (ball_bounce_edge _)))).
  rewrite (proj2 (ball_move_player2 _)), (proj2 (ball_move_computer _)),
    (proj2 (ball_move_player1 _)), (proj2 (ball_check_winner _)).
  reflexivity.
Qed.

(** *** The ball's vertical direction *)





Lemma ball_ready_to_play (g : t) :
  ball (ready_to_play g) = ball g /\ player1 (ready_to_play g) = player1 g.
Proof. unfold ready_to_play. destruct (_ && _)%bool; split; reflexivity. Qed.



(** *** Scoring on the left bound *)

(** Once the ball is stopped, the right-side test and the ball's move do
    nothing. *)
Lemma stopped_rest_of_tick (h : t) :
  Ball.launched (ball h) = false ->
  ball (move_ball (score_right h)) = ball h /\
  timers (move_ball (score_right h)) = timers h /\
  player1 (move_ball (score_right h)) = player1 h /\
  player2 (move_ball (score_right h)) = player2 h.
Proof.
  intros L. unfold score_right, touches_right. rewrite L. cbn [andb].
  unfold move_ball, Ball.move. cbn [ball with_ball timers player1 player2].
  rewrite L. repeat split.
Qed.




(** The rest of a tick whose ball has been stopped. *)
Lemma finish_tick (h : t) (now : num) :
  Ball.launched (ball h) = false ->
  let g' := requestFrame (move_ball (score_right h)) now false in
  ball g' = ball h /\ timers g' = timers h /\
  player1 g' = player1 h /\ player2 g' = player2 h.
Proof.
  intros L. cbv zeta.
  destruct (stopped_rest_of_tick h L) as (Eb & Et & E1 & E2).
  destruct (requestFrame_keeps (move_ball (score_right h)) now false) as (Rb & Rt & R1 & R2).
  rewrite Rb, Rt, R1, R2, Eb, Et, E1, E2.
  split; [|split; [|split]]; reflexivity.
Qed.



(** The left-side block, when its test holds. *)
Lemma score_left_fired (g1 : t) :
  touches_left g1 = true ->
  let h := score_left g1 in
  Ball.launched (ball h) = false /\
  Ball.dx (ball h) = Fin 0 /\
  Sprite.speed (Ball.base (ball h)) = ParseInt.parseInt (Settings.ballSpeed (settings g1)) /\
  Sprite.x (Ball.base (ball h)) = Sprite.x (Ball.base (ball g1)) /\
  Player.score (player1 h) = Player.score (player1 g1) /\
  Player.score (player2 h) = (Player.score (player2 g1) + 1)%Z /\
  Player.base (player2 h) = Player.base (player2 g1) /\
  (in2_active (input2 g1) = true ->
   timers h = timers g1 ++ [mkTimer (Fin 1000) DeferredReset]) /\
  (in2_active (input2 g1) = false ->
   Sprite.y (Ball.base (ball h)) = Sprite.y (Player.base (player2 g1)) /\
   timers h =
   timers g1 ++
     [mkTimer (Fin 3000)
        (DeferredLaunch ((Sprite.width (Player.base (player2 g1))
                          + Sprite.width (Ball.base (ball g1))) * Fin 1)%js (Fin 1));
      mkTimer (Fin 1000) DeferredReset]).
Proof.
  intros T. cbv zeta. unfold score_left. rewrite T. cbn.
  destruct (in2_active (input2 g1)); cbn; repeat split; intros; try discriminate;
    try reflexivity.
  rewrite <- app_assoc. reflexivity.
Qed.




End GameFacts.

(** ** Sessions *)

Module SessionFacts.
Import Game Session SpriteSpec.

Lemma run_reachable (es : list Event) (g g' : t) :
  reachable g -> run g es = Some g' -> reachable g'.
Proof.
  revert g. induction es as [|e es IH]; simpl; intros g R H.
  - injection H as <-. exact R.
  - destruct (enabled g e) eqn:En; [|discriminate].
    destruct (handle g e) as [g1|] eqn:Hd; [|discriminate].
    apply (IH g1); [|exact H].
    apply (reach_step g e g1); assumption.
Qed.











(** *** Player1 never scores

    Both scoring blocks of [play()] add to player2's score. *)

Lemma score1_relaunchBall (g : t) (side : Side) :
  player1 (relaunchBall g side) = player1 g.
Proof.
  unfold relaunchBall. destruct (Ball.launched (ball g)); [reflexivity|].
  destruct side; reflexivity.
Qed.

Lemma player1_pause (g : t) (now : num) : player1 (pause g now) = player1 g.
Proof.
  unfold pause. destruct (negb _); [reflexivity|].
  cbn. destruct (negb (paused (state g))); reflexivity.
Qed.

Lemma player1_score_left (h : t) : player1 (score_left h) = player1 h.
Proof.
  unfold score_left. destruct (touches_left h); [|reflexivity].
  cbn. destruct (in2_active (input2 h)); reflexivity.
Qed.

Lemma player1_score_right (h : t) : player1 (score_right h) = player1 h.
Proof. unfold score_right. destruct (touches_right h); reflexivity. Qed.

Lemma score1_play_block (h : t) :
  Player.score (player1 (play_block h)) = Player.score (player1 h).
Proof.
  rewrite GameFacts.play_block_eq.
  destruct (GameFacts.frame_before_scoring h) as (_ & _ & _ & _ & _ & <- & _).
  generalize (before_scoring h). intros k.
  rewrite GameFacts.player1_move_ball, player1_score_right, player1_score_left. reflexivity.
Qed.

Lemma score1_play (g : t) (now : num) :
  Player.score (player1 (play g now)) = Player.score (player1 g).
Proof.
  unfold play. cbv zeta.
  rewrite (proj1 (proj2 (proj2 (GameFacts.requestFrame_keeps _ now false)))).
  rewrite <- (proj2 (GameFacts.ball_ready_to_play g)).
  generalize (ready_to_play g). intros h.
  unfold game_play. destruct (Phase_eqb (current (state h)) st_play); [|reflexivity].
  apply score1_play_block.
Qed.

Lemma score1_handleKeyboardInput (g g' : t) (keydown : bool) (code : Key) (now : num) :
  handleKeyboardInput g keydown code now = Some g' -> player1 g' = player1 g.
Proof.
  unfold handleKeyboardInput. cbv zeta.
  set (h := pause_key _ keydown code now).
  assert (E : player1 h = player1 g).
  { subst h. unfold pause_key, join_player2, keys_player2, keys_player1.
    destruct keydown, code; cbv zeta;
      repeat match goal with
             | |- context [if ?c then _ else _] => destruct c
             end;
      rewrite ?player1_pause, ?score1_relaunchBall; reflexivity. }
  clearbody h.
  destruct keydown, code; try (intros [= <-]; exact E).
  destruct (includes_win _); [discriminate|]. intros [= <-]. exact E.
Qed.

Lemma score1_handle (g g' : t) (e : Event) :
  handle g e = Some g' -> Player.score (player1 g') = Player.score (player1 g).
Proof.
  destruct e; unfold handle; intros H.
  - injection H as <-. apply score1_play.
  - rewrite (score1_handleKeyboardInput _ _ _ _ _ H). reflexivity.
  - rewrite (score1_handleKeyboardInput _ _ _ _ _ H). reflexivity.
  - injection H as <-. reflexivity.
  - injection H as <-. reflexivity.
  - unfold handleClicks in H.
    destruct (Phase_eqb (current (state g)) st_loading); [injection H as <-; reflexivity|].
    destruct target; try (injection H as <-; rewrite ?player1_pause; reflexivity).
    destruct (Phase_eqb (current (state g)) st_play && onRightSide g)%bool;
      destruct (includes_win _); try discriminate; injection H as <-;
      rewrite ?score1_relaunchBall; reflexivity.
  - discriminate.
  - destruct (nth_error (timers g) i) as [tm|]; [|injection H as <-; reflexivity].
    destruct (action tm); unfold run_deferred in H; [|discriminate].
    injection H as <-. reflexivity.
Qed.

(** No session ever gives player1, the right-side paddle, a point. *)
Lemma player1_never_scores (g : t) :
  reachable g -> Player.score (player1 g) = 0%Z.
Proof.
  induction 1 as [bt now|g e g' R IH En Hd].
  - unfold create. rewrite score1_play. reflexivity.
  - rewrite (score1_handle g g' e Hd). exact IH.
Qed.

Lemma player1_never_scores_witness :
  reachable Scenario.left_state /\ Player.score (player1 Scenario.left_state) = 0%Z.
Proof.
  assert (R : reachable Scenario.left_state).
  { apply (run_reachable Scenario.left_trace Scenario.start5).
    - apply reach_create.
    - vm_compute. reflexivity. }
  split; [exact R|]. apply (player1_never_scores _ R).
Defined.





(** The stale centre of C9 in a session: right after the launch with the
    space bar the ball is at x = 985, 60 wide, with its centre still at 1090,
    the value from its construction at x = 1060. *)
Lemma launch_in_session_leaves_centre_stale :
  run Scenario.start5 Scenario.low_trace = Some Scenario.low_state /\
  (Sprite.x (Ball.base (ball Scenario.low_state)) === Fin 985)%js = true /\
  (Sprite.width (Ball.base (ball Scenario.low_state)) === Fin 60)%js = true /\
  (Sprite.cx (Ball.base (ball Scenario.low_state)) === Fin 1090)%js = true /\
  centredb (Ball.base (ball Scenario.low_state)) = false.
Proof. by_evaluation. Qed.

End SessionFacts.

(* ================================================================== *)
(** * Further properties of the code *)

(** ** game/helpers/utils.js *)

Module UtilsFacts.
Import Utils UtilsSpec.

Lemma not_ltb_leb (a b : num) :
  is_number a = true -> is_number b = true ->
  (a <? b)%js = false -> (b <=? a)%js = true.
Proof.
  unfold is_number.
  destruct a as [p| | |], b as [q| | |]; simpl; intros Ha Hb H;
    try discriminate; try reflexivity.
  rewrite <- (Qcompare_antisym p q). destruct (p ?= q); simpl in *; congruence.
Qed.

Lemma leb_not_ltb (a b : num) : (a <=? b)%js = true -> (b <? a)%js = false.
Proof.
  destruct a as [p| | |], b as [q| | |]; simpl; intros H;
    try discriminate; try reflexivity.
  rewrite <- (Qcompare_antisym p q). destruct (p ?= q); simpl in *; congruence.
Qed.

(** [boundBy(n, upper, lower)] with [lower <= upper] and [n] a number: the
    result lies in [[lower, upper]]; it is [n] itself when [n] does; a
    smaller [n] gives [lower] and a larger one [upper]; and bounding the
    result again changes nothing. *)
Theorem boundBy_clamps (n upper lower : num) :
  (lower <=? upper)%js = true -> is_number n = true ->
  let r := boundBy n upper lower in
  ((lower <=? r)%js = true /\ (r <=? upper)%js = true) /\
  ((lower <=? n)%js = true -> (n <=? upper)%js = true -> r = n) /\
  ((n <? lower)%js = true -> r = lower) /\
  ((n >? upper)%js = true -> r = upper) /\
  boundBy r upper lower = r.
Proof.
  intros Hlu Hn. cbv zeta.
  destruct (leb_true_refl _ _ Hlu) as [Hl Hu].
  assert (Nl : is_number lower = true).
  { unfold is_number. destruct lower; simpl in *; try discriminate; try reflexivity.
    apply Qeq_bool_refl. }
  assert (Nu : is_number upper = true).
  { unfold is_number. destruct upper; simpl in *; try discriminate; try reflexivity.
    apply Qeq_bool_refl. }
  pose proof (leb_not_ltb _ _ Hlu) as Hul.
  unfold boundBy, Num.gtb.
  destruct (n <? lower)%js eqn:E1.
  - assert (E2 : (lower <? lower)%js = false) by (apply leb_not_ltb; exact Hl).
    rewrite ?Hul, ?E2, ?Hul.
    repeat split; auto.
    + intros H _. apply leb_not_ltb in H. congruence.
    + intros H.
      assert (X : (lower <? n)%js = true).
      { clear - H Hlu. destruct n as [p| | |], upper as [q| | |], lower as [r| | |];
          simpl in *; try discriminate; try reflexivity.
        apply ltb_Fin. apply ltb_Fin in H. apply leb_Fin in Hlu. lra. }
      apply ltb_asym in X. congruence.
  - destruct (upper <? n)%js eqn:E2.
    + assert (E3 : (upper <? lower)%js = false) by exact Hul.
      assert (E4 : (upper <? upper)%js = false) by (apply leb_not_ltb; exact Hu).
      rewrite ?E3, ?E4, ?E3.
      repeat split; auto.
      * intros _ H. apply leb_not_ltb in H. congruence.
      * discriminate.
    + rewrite ?E1, ?E2.
      pose proof (not_ltb_leb _ _ Hn Nl E1) as A.
      pose proof (not_ltb_leb _ _ Nu Hn E2) as B.
      repeat split; auto; discriminate.
Qed.

Lemma boundBy_clamps_witness :
  (Fin (-1 # 2) <=? Fin (1 # 2))%js = true /\
  is_number (Fin 5) = true /\
  boundBy (Fin 5) (Fin (1 # 2)) (Fin (-1 # 2)) = Fin (1 # 2).
Proof.
  split; [reflexivity|]. split; [reflexivity|].
  apply (proj1 (proj2 (proj2 (proj2
           (boundBy_clamps (Fin 5) (Fin (1 # 2)) (Fin (-1 # 2)) eq_refl eq_refl))))).
  reflexivity.
Defined.

(** *** [hashCode] *)

Lemma toInt32_eq (z : Z) :
  toInt32 z = (z - two32 * ((z + 2147483648) / two32))%Z.
Proof.
  unfold toInt32, two32. change (2 ^ 31)%Z with 2147483648%Z.
  change (2 ^ 32)%Z with 4294967296%Z.
  rewrite Z.mod_eq by lia. lia.
Qed.

Lemma toInt32_range (z : Z) : (- 2 ^ 31 <= toInt32 z < 2 ^ 31)%Z.
Proof.
  unfold toInt32. change (2 ^ 31)%Z with 2147483648%Z.
  change (2 ^ 32)%Z with 4294967296%Z.
  pose proof (Z.mod_pos_bound (z + 2147483648) 4294967296 ltac:(lia)). lia.
Qed.

Lemma toInt32_shift (z k : Z) : toInt32 (z + two32 * k) = toInt32 z.
Proof.
  unfold toInt32, two32. change (2 ^ 32)%Z with 4294967296%Z.
  replace (z + 4294967296 * k + 2 ^ 31)%Z with (z + 2 ^ 31 + k * 4294967296)%Z by lia.
  rewrite Z_mod_plus_full. reflexivity.
Qed.

Lemma toInt32_idem (z : Z) : toInt32 (toInt32 z) = toInt32 z.
Proof.
  rewrite (toInt32_eq z) at 1.
  replace (z - two32 * ((z + 2147483648) / two32))%Z
    with (z + two32 * (- ((z + 2147483648) / two32)))%Z by (unfold two32; lia).
  apply toInt32_shift.
Qed.

Lemma hash_step_eq (a : Z) (b : ascii) :
  hash_step a b = toInt32 (31 * a + charCode b).
Proof.
  unfold hash_step, and32, shl. cbv zeta.
  rewrite Z.land_diag, toInt32_idem.
  change (2 ^ 5)%Z with 32%Z.
  rewrite (toInt32_eq (toInt32 a * 32)), (toInt32_eq a).
  set (k1 := ((a + 2147483648) / two32)%Z).
  set (k2 := (((a - two32 * k1) * 32 + 2147483648) / two32)%Z).
  replace ((a - two32 * k1) * 32 - two32 * k2 - a + charCode b)%Z
    with (31 * a + charCode b + two32 * (- 32 * k1 - k2))%Z by (unfold two32; lia).
  apply toInt32_shift.
Qed.

Lemma reduce_hash (str : string) (a : Z) :
  reduce hash_step (toInt32 a) str = toInt32 (poly_hash a str).
Proof.
  revert a. induction str as [|b r IH]; intros a; simpl.
  - reflexivity.
  - rewrite hash_step_eq.
    rewrite (toInt32_eq a) at 1.
    replace (31 * (a - two32 * ((a + 2147483648) / two32)) + charCode b)%Z
      with (31 * a + charCode b + two32 * (- 31 * ((a + 2147483648) / two32)))%Z
      by (unfold two32; lia).
    rewrite toInt32_shift. apply IH.
Qed.

Lemma hash_wrapped (str : string) : hash str = toInt32 (poly_hash 0 str).
Proof. unfold hash. change 0%Z with (toInt32 0) at 1. apply reduce_hash. Qed.

(** The number [hashCode] computes is the polynomial hash
    [c1 * 31^(n-1) + ... + cn] of the character codes, wrapped to a signed
    32-bit integer at the end only: the wrap-around in every round loses
    nothing.  It therefore lies in [[-2^31, 2^31)]. *)
Theorem hash_is_wrapped_polynomial (str : string) :
  hash str = toInt32 (poly_hash 0 str) /\
  (- 2 ^ 31 <= hash str < 2 ^ 31)%Z.
Proof.
  split; [apply hash_wrapped|]. rewrite hash_wrapped. apply toInt32_range.
Qed.





(** *** [throttled] *)

(** Whatever the times of the calls, the calls that run are among them, in
    order, and no call runs less than [delay] after the call that ran before
    it (or after time 0, for the first one). *)
Theorem throttled_calls_are_spaced (delay : num) (times : list num) (lastCall : num) :
  spaced delay lastCall (throttled_calls delay lastCall times) /\
  sublist (throttled_calls delay lastCall times) times.
Proof.
  revert lastCall. induction times as [|now rest IH]; intros lastCall.
  - split; exact I.
  - cbn [throttled_calls]. unfold throttled_call.
    destruct (now - lastCall <? delay)%js eqn:E.
    + destruct (IH lastCall) as [S1 S2]. split; [exact S1|].
      destruct (throttled_calls delay lastCall rest); [exact I|].
      right. exact S2.
    + destruct (IH now) as [S1 S2]. split.
      * split; [exact E|exact S1].
      * left. split; [reflexivity|exact S2].
Qed.

End UtilsFacts.

(** ** The playlist *)

Module PlaylistFacts.
Import Playlist.

(** [stopPlayback(key)] leaves in the playlist exactly the entries of that
    key, in their order and all of them paused; the entries of every other
    key are dropped from the list (and not paused), so that stopping a key
    nothing is playing under empties the playlist. *)
Theorem stopPlayback_keeps_the_targets (playlist : list Entry) (key0 : string) :
  Forall (fun s => key s = key0 /\ paused_by_stop s = true) (stopPlayback playlist key0) /\
  List.map id (stopPlayback playlist key0)
  = List.map id (List.filter (fun s => String.eqb (key s) key0) playlist) /\
  (Forall (fun s => key s <> key0) playlist -> stopPlayback playlist key0 = []).
Proof.
  unfold stopPlayback. split; [|split].
  - apply Forall_forall. intros e He.
    apply in_map_iff in He. destruct He as (s & <- & Hs).
    apply filter_In in Hs. destruct Hs as [_ Hk].
    apply String.eqb_eq in Hk. split; [exact Hk|reflexivity].
  - rewrite map_map. reflexivity.
  - intros H. induction playlist as [|s r IH]; [reflexivity|].
    inversion H as [|? ? Hs Hr]; subst. cbn [List.filter].
    destruct (String.eqb (key s) key0) eqn:E.
    + apply String.eqb_eq in E. contradiction.
    + apply IH. exact Hr.
Qed.

Lemma stopPlayback_keeps_the_targets_witness :
  Forall (fun s => key s <> "bounceSound"%string)
         [mkEntry "a1" "scoreSound" false; mkEntry "b2" "backgroundMusic" false] /\
  stopPlayback [mkEntry "a1" "scoreSound" false; mkEntry "b2" "backgroundMusic" false]
               "bounceSound" = [].
Proof.
  assert (H : Forall (fun s => key s <> "bounceSound"%string)
                [mkEntry "a1" "scoreSound" false; mkEntry "b2" "backgroundMusic" false]).
  { repeat constructor; simpl; discriminate. }
  split; [exact H|].
  apply (proj2 (proj2 (stopPlayback_keeps_the_targets _ "bounceSound")) H).
Defined.



End PlaylistFacts.

(** ** Sprites and the ball, further *)

Module SpriteExtra.
Import Sprite SpriteSpec SessionSpec.

Lemma truthy_or_else (a : num) : Num.truthy (Num.or_else a (Fin 1)) = true.
Proof. unfold Num.or_else. destruct (Num.truthy a) eqn:E; [exact E|reflexivity]. Qed.

(** The constructor establishes the class invariant (centre in place, speed
    neither 0 nor NaN, whatever speed was asked for), and [setX], [setY],
    [setBounds] and [move] keep it. *)
Theorem sprite_invariant_kept :
  (forall x0 y0 w h sp d b, sprite_inv (constructor x0 y0 w h sp d b)) /\
  (forall s v, sprite_inv s -> sprite_inv (setX s v) /\ sprite_inv (setY s v)) /\
  (forall s b, sprite_inv s -> sprite_inv (setBounds s b)) /\
  (forall s ax ay m, sprite_inv s -> sprite_inv (move s ax ay m)).
Proof.
  split; [|split; [|split]].
  - intros. split; [split; reflexivity|]. apply truthy_or_else.
  - intros s v [[Cx Cy] T]. split; (split; [split|exact T]); try reflexivity; assumption.
  - intros s b [[Cx Cy] T]. split; [split|exact T]; assumption.
  - intros s ax ay m [_ T]. split; [apply SpriteFacts.move_centred|].
    destruct (SpriteFacts.move_frame s ax ay m) as (_ & _ & _ & ->). exact T.
Qed.

Lemma sprite_invariant_kept_witness :
  sprite_inv Samples.small_sprite /\
  sprite_inv (move Samples.small_sprite (Fin 1) (Fin 1) (Fin 2)).
Proof.
  assert (H : sprite_inv Samples.small_sprite).
  { split; [split|]; reflexivity. }
  split; [exact H|].
  apply (proj2 (proj2 (proj2 sprite_invariant_kept)) _ _ _ _ H).
Defined.

(** Clamping a finite candidate [c], starting from a finite [p] inside a
    non-NaN range: the result is finite and lies between [p] and [c]. *)
Lemma clamp_between (lo hi : num) (p c : Q) :
  (lo <=? Fin p)%js = true -> (Fin p <=? hi)%js = true ->
  exists q : Q,
    (if ((Fin c >=? lo) && (Fin c <=? hi))%js%bool then Fin c
     else if (Fin c <? lo)%js then lo else hi) = Fin q /\
    (p <= c -> p <= q <= c) /\ (c <= p -> c <= q <= p).
Proof.
  intros Hlo Hhi. unfold Num.geb.
  destruct ((lo <=? Fin c) && (Fin c <=? hi))%js%bool eqn:E.
  - exists c. split; [reflexivity|]. split; intros; lra.
  - destruct (Fin c <? lo)%js eqn:L.
    + destruct lo as [l| | |]; simpl in Hlo, L; try discriminate.
      exists l. split; [reflexivity|].
      apply leb_Fin in Hlo. apply ltb_Fin in L. split; intros; lra.
    + assert (A : (lo <=? Fin c)%js = true).
      { destruct lo as [l| | |]; simpl in Hlo, L |- *; try discriminate; try reflexivity.
        apply leb_Fin.
        destruct (Qlt_le_dec c l) as [X|X]; [|exact X].
        apply ltb_Fin in X. simpl in X. congruence. }
      rewrite A in E. cbn [andb] in E.
      destruct hi as [h| | |]; simpl in Hhi, E; try discriminate.
      exists h. split; [reflexivity|].
      apply leb_Fin in Hhi.
      assert (h < c).
      { destruct (Qlt_le_dec h c) as [X|X]; [exact X|].
        apply leb_Fin in X. simpl in X. congruence. }
      split; intros; lra.
Qed.

(** [move] on a sprite inside its bounds, with finite position and finite
    candidates: on each axis the new position lies between the old one and the
    candidate.  The sprite never goes backwards and never farther than
    commanded, and a candidate equal to the old position leaves it there. *)
Theorem move_stays_between (s : t) (ax ay m : num) (px0 py0 cx0 cy0 : Q) :
  in_bounds s = true ->
  x s = Fin px0 -> y s = Fin py0 ->
  candidateX s ax m = Fin cx0 -> candidateY s ay m = Fin cy0 ->
  exists qx qy : Q,
    x (move s ax ay m) = Fin qx /\ y (move s ax ay m) = Fin qy /\
    (px0 <= cx0 -> px0 <= qx <= cx0) /\ (cx0 <= px0 -> cx0 <= qx <= px0) /\
    (py0 <= cy0 -> py0 <= qy <= cy0) /\ (cy0 <= py0 -> cy0 <= qy <= py0).
Proof.
  intros B Hx Hy Cx Cy.
  unfold in_bounds, in_rangeX, in_rangeY in B.
  apply andb_prop in B. destruct B as [BX BY].
  apply andb_prop in BX. destruct BX as [X1 X2].
  apply andb_prop in BY. destruct BY as [Y1 Y2].
  rewrite Hx in X1, X2. rewrite Hy in Y1, Y2.
  destruct (clamp_between _ _ px0 cx0 X1 X2) as (qx & Ex & Ax & Bx).
  destruct (clamp_between _ _ py0 cy0 Y1 Y2) as (qy & Ey & Ay & By).
  exists qx, qy.
  rewrite SpriteFacts.move_x, SpriteFacts.move_y, Cx, Cy.
  unfold clampX, clampY.
  split; [exact Ex|]. split; [exact Ey|].
  split; [exact Ax|]. split; [exact Bx|]. split; [exact Ay|exact By].
Qed.

Lemma move_stays_between_witness :
  in_bounds Samples.small_sprite = true /\
  exists qx qy : Q,
    x (move Samples.small_sprite (Fin 1) (Fin 40) (Fin 1)) = Fin qx /\
    y (move Samples.small_sprite (Fin 1) (Fin 40) (Fin 1)) = Fin qy /\
    (0 <= 3 -> 0 <= qx <= 3) /\ (0 <= 120 -> 0 <= qy <= 120).
Proof.
  split; [reflexivity|].
  destruct (move_stays_between Samples.small_sprite (Fin 1) (Fin 40) (Fin 1) 0 0 3 120
              eq_refl eq_refl eq_refl) as (qx & qy & Ex & Ey & Ax & _ & Ay & _);
    [vm_compute; reflexivity|vm_compute; reflexivity|].
  exists qx, qy. split; [exact Ex|]. split; [exact Ey|]. split; [exact Ax|exact Ay].
Defined.

(** [launch] with a delay that is a number other than 0 and NaN stops the
    ball at once and schedules one timer with that delay; running the timer's
    callback on the ball as [launch] left it gives exactly the ball of a
    launch without delay.  A delay of [null], 0 or NaN launches at once. *)
Theorem delayed_launch_is_deferred (b : Ball.t) (d dx0 offset : num) :
  (Num.truthy d = true ->
   let totalOffset := ((offset + width (Ball.base b)) * dx0)%js in
   Ball.launch b (Some d) dx0 offset
   = (Ball.stop b, Some (mkTimer d (DeferredLaunch totalOffset dx0))) /\
   Ball.launch_now (Ball.stop b) totalOffset dx0 = fst (Ball.launch b None dx0 offset)) /\
  (Num.truthy d = false ->
   Ball.launch b (Some d) dx0 offset = Ball.launch b None dx0 offset) /\
  snd (Ball.launch b None dx0 offset) = None.
Proof.
  unfold Ball.launch. cbn [Ball.has_delay].
  split; [|split].
  - intros ->. split; reflexivity.
  - intros ->. reflexivity.
  - reflexivity.
Qed.

Lemma delayed_launch_is_deferred_witness :
  Num.truthy (Fin 3000) = true /\
  Ball.launch_now (Ball.stop Samples.resting_ball)
    ((Fin 20 + width (Ball.base Samples.resting_ball)) * Fin 1)%js (Fin 1)
  = fst (Ball.launch Samples.resting_ball None (Fin 1) (Fin 20)).
Proof.
  split; [reflexivity|].
  apply (proj2 (proj1 (delayed_launch_is_deferred Samples.resting_ball (Fin 3000)
                         (Fin 1) (Fin 20)) eq_refl)).
Defined.

End SpriteExtra.

(** ** What an event can do to a session *)

Module FrameFacts.
Import Game Session SpriteSpec SessionSpec.

Lemma pm_one (s : Sprite.t) (ay m : num) : paddle_moves s (Sprite.move s (Fin 0) ay m).
Proof. apply pm_step. apply pm_refl. Qed.

Lemma pm_trans (a b c : Sprite.t) :
  paddle_moves a b -> paddle_moves b c -> paddle_moves a c.
Proof.
  intros H1 H2. induction H2 as [|b c ay m H2 IH]; [exact H1|].
  apply pm_step. apply IH. exact H1.
Qed.

Lemma geometry_refl (s : Sprite.t) : same_geometry s s.
Proof. repeat split. Qed.

Lemma geometry_trans (a b c : Sprite.t) :
  same_geometry a b -> same_geometry b c -> same_geometry a c.
Proof. intros (A1 & A2 & A3) (B1 & B2 & B3). repeat split; congruence. Qed.

Lemma geometry_move (s : Sprite.t) (ax ay m : num) :
  same_geometry s (Sprite.move s ax ay m).
Proof.
  destruct (SpriteFacts.move_frame s ax ay m) as (Hb & Hw & Hh & _).
  repeat split; assumption.
Qed.

Lemma frame_refl (g : t) : session_frame g g.
Proof.
  unfold session_frame. repeat split; auto using pm_refl, Z.le_refl.
Qed.

Lemma frame_trans (g1 g2 g3 : t) :
  session_frame g1 g2 -> session_frame g2 g3 -> session_frame g1 g3.
Proof.
  unfold session_frame.
  intros ((A1 & A2 & A3) & A4 & (A5 & A6 & A7 & A8) & (A9 & A10) & A11 & A12 & A13)
         ((B1 & B2 & B3) & B4 & (B5 & B6 & B7 & B8) & (B9 & B10) & B11 & B12 & B13).
  split; [repeat split; congruence|].
  split; [auto|].
  split; [repeat split; try congruence; lia|].
  split; [split; eapply pm_trans; eassumption|].
  split; [eapply geometry_trans; eassumption|].
  split; auto.
Qed.

(** Blocks that write nothing the frame speaks of. *)
Ltac frame_trivial :=
  unfold session_frame;
  repeat split; intros; try reflexivity; try assumption; try discriminate;
  auto using pm_refl, Z.le_refl.

Lemma sf_check_winner (g : t) : session_frame g (check_winner g).
Proof.
  unfold check_winner.
  destruct (Num.of_Z (Player.score (player1 g)) === winScore (state g))%js;
    cbn [setState_current with_state state winScore player2];
    destruct (Num.of_Z (Player.score (player2 g)) === winScore (state g))%js;
    frame_trivial.
Qed.

Lemma sf_with_player1_move (g : t) (ay m : num) :
  session_frame g (with_player1 g (Player.move (player1 g) (Fin 0) ay m)).
Proof. frame_trivial. apply pm_one. Qed.

Lemma sf_with_player2_move (g : t) (ay m : num) :
  session_frame g (with_player2 g (Player.move (player2 g) (Fin 0) ay m)).
Proof. frame_trivial. apply pm_one. Qed.

(** The three input blocks of player 1 are exclusive: one of them runs. *)
Lemma move_player1_eq (g : t) :
  move_player1 g =
  match in_current (input g) with
  | keyboard =>
      with_player1 g
        (Player.move (player1 g) (Fin 0)
           (keys_axis (in_up (input g)) (in_down (input g))) (scale (frame g)))
  | mouse =>
      with_player1 g
        (Player.move (player1 g) (Fin 0)
           (pointer_offset g (mouse_y (input g)) / Fin 100)%js (Fin 1))
  | touch =>
      with_player1 g
        (Player.move (player1 g) (Fin 0)
           (pointer_offset g (touch_y (input g)) / Fin 100)%js (Fin 1))
  end.
Proof.
  unfold move_player1, with_player1, pointer_offset.
  destruct (in_current (input g)) eqn:E; cbn [input]; rewrite ?E; cbn [input]; rewrite ?E;
    reflexivity.
Qed.

Lemma sf_move_player1 (g : t) : session_frame g (move_player1 g).
Proof.
  rewrite move_player1_eq.
  destruct (in_current (input g)); apply sf_with_player1_move.
Qed.

Lemma sf_move_computer (g : t) : session_frame g (move_computer g).
Proof.
  unfold move_computer. destruct (computer_active g);
    [apply sf_with_player2_move|apply frame_refl].
Qed.

Lemma sf_move_player2 (g : t) : session_frame g (move_player2 g).
Proof.
  unfold move_player2. destruct (in2_active (input2 g));
    [apply sf_with_player2_move|apply frame_refl].
Qed.

Lemma sf_bounce_edge (g : t) : session_frame g (bounce_edge g).
Proof. unfold bounce_edge. destruct (_ || _)%bool; frame_trivial. Qed.

Lemma sf_bounce_player1 (c : option PlayerName) (g : t) :
  session_frame g (bounce_player1 c g).
Proof. destruct c as [[|]|]; frame_trivial. Qed.

Lemma sf_bounce_player2 (c : option PlayerName) (g : t) :
  session_frame g (bounce_player2 c g).
Proof. destruct c as [[|]|]; frame_trivial. Qed.

Lemma sf_score_left (g : t) : session_frame g (score_left g).
Proof.
  unfold score_left. destruct (touches_left g); [|apply frame_refl].
  cbn. destruct (in2_active (input2 g)); cbn; frame_trivial; cbn; lia.
Qed.

Lemma sf_score_right (g : t) : session_frame g (score_right g).
Proof.
  unfold score_right. destruct (touches_right g); [|apply frame_refl].
  frame_trivial. cbn. lia.
Qed.

Lemma sf_move_ball (g : t) : session_frame g (move_ball g).
Proof.
  unfold move_ball, Ball.move.
  destruct (Ball.launched (ball g)); cbn [negb]; frame_trivial;
    apply (SpriteFacts.move_frame (Ball.base (ball g))).
Qed.

Lemma sf_requestFrame (g : t) (now : num) (r : bool) :
  session_frame g (requestFrame g now r).
Proof. frame_trivial. Qed.

Lemma sf_ready_to_play (g : t) : session_frame g (ready_to_play g).
Proof.
  unfold ready_to_play.
  destruct (current (state g)) eqn:E; cbn [Phase_eqb andb]; try apply frame_refl.
  destruct (prev (state g)) as [[| | | |]|]; try apply frame_refl.
  frame_trivial.
Qed.

Lemma sf_play_block (g : t) : session_frame g (play_block g).
Proof.
  rewrite GameFacts.play_block_eq, GameFacts.before_scoring_eq.
  eapply frame_trans; [apply sf_check_winner|].
  eapply frame_trans; [apply sf_move_player1|].
  eapply frame_trans; [apply sf_move_computer|].
  eapply frame_trans; [apply sf_move_player2|].
  eapply frame_trans; [apply sf_bounce_edge|].
  eapply frame_trans; [apply sf_bounce_player1|].
  eapply frame_trans; [apply sf_bounce_player2|].
  eapply frame_trans; [apply sf_score_left|].
  eapply frame_trans; [apply sf_score_right|].
  apply sf_move_ball.
Qed.

Lemma sf_play (g : t) (now : num) : session_frame g (play g now).
Proof.
  unfold play. cbv zeta.
  eapply frame_trans; [apply sf_ready_to_play|].
  eapply frame_trans; [|apply sf_requestFrame].
  unfold game_play. destruct (Phase_eqb _ st_play); [apply sf_play_block|apply frame_refl].
Qed.

Lemma sf_relaunchBall (g : t) (side : Side) : session_frame g (relaunchBall g side).
Proof.
  unfold relaunchBall. destruct (Ball.launched (ball g)); [apply frame_refl|].
  destruct side; frame_trivial.
Qed.

Lemma sf_pause (g : t) (now : num) : session_frame g (pause g now).
Proof.
  unfold pause. destruct (negb _); [apply frame_refl|].
  cbn. destruct (negb (paused (state g))); frame_trivial.
Qed.

Lemma sf_keyboard_source (g : t) : session_frame g (keyboard_source g).
Proof. unfold keyboard_source. frame_trivial. Qed.

Lemma sf_keys_player1 (g : t) (keydown : bool) (code : Key) :
  session_frame g (keys_player1 g keydown code).
Proof.
  unfold keys_player1.
  destruct keydown, code; try apply frame_refl; try (frame_trivial; fail).
  cbv zeta. destruct (_ && _)%bool; [apply sf_relaunchBall|apply frame_refl].
Qed.

Lemma sf_keys_player2 (g : t) (keydown : bool) (code : Key) :
  session_frame g (keys_player2 g keydown code).
Proof.
  unfold keys_player2.
  destruct keydown, code; try apply frame_refl; try (frame_trivial; fail).
  cbv zeta. destruct (_ && _)%bool; [apply sf_relaunchBall|apply frame_refl].
Qed.

Lemma sf_join_player2 (g : t) (keydown : bool) (code : Key) :
  session_frame g (join_player2 g keydown code).
Proof.
  unfold join_player2.
  destruct keydown, code; try apply frame_refl;
    destruct (negb _); try apply frame_refl; frame_trivial.
Qed.

Lemma sf_pause_key (g : t) (keydown : bool) (code : Key) (now : num) :
  session_frame g (pause_key g keydown code now).
Proof.
  unfold pause_key. destruct keydown, code; try apply frame_refl. apply sf_pause.
Qed.

Lemma sf_handleKeyboardInput (g g' : t) (keydown : bool) (code : Key) (now : num) :
  handleKeyboardInput g keydown code now = Some g' -> session_frame g g'.
Proof.
  unfold handleKeyboardInput. cbv zeta.
  set (h := pause_key _ keydown code now).
  assert (F : session_frame g h).
  { subst h.
    eapply frame_trans; [apply sf_keyboard_source|].
    eapply frame_trans; [apply sf_keys_player1|].
    eapply frame_trans; [apply sf_keys_player2|].
    eapply frame_trans; [apply sf_join_player2|].
    apply sf_pause_key. }
  clearbody h.
  destruct keydown, code; try (intros [= <-]; exact F).
  destruct (includes_win _); [discriminate|]. intros [= <-]. exact F.
Qed.

Lemma sf_handleClicks (g g' : t) (target : Target) (now : num) :
  handleClicks g target now = Some g' -> session_frame g g'.
Proof.
  unfold handleClicks.
  destruct (Phase_eqb (current (state g)) st_loading); [intros [= <-]; apply frame_refl|].
  destruct target.
  - intros [= <-]. unfold mute. frame_trivial.
  - intros [= <-]. apply sf_pause.
  - intros [= <-]. unfold setState_current. frame_trivial.
  - destruct (Phase_eqb (current (state g)) st_play && onRightSide g)%bool;
      destruct (includes_win _); try discriminate; intros [= <-];
      [apply sf_relaunchBall|apply frame_refl].
Qed.

(** Every event a session survives keeps the frame. *)
Lemma sf_handle (g g' : t) (e : Event) :
  handle g e = Some g' -> session_frame g g'.
Proof.
  destruct e; unfold handle; intros H.
  - injection H as <-. apply sf_play.
  - apply (sf_handleKeyboardInput _ _ _ _ _ H).
  - apply (sf_handleKeyboardInput _ _ _ _ _ H).
  - injection H as <-. unfold handleMouseMove. frame_trivial.
  - injection H as <-. unfold handleTouchMove. frame_trivial.
  - apply (sf_handleClicks _ _ _ _ H).
  - discriminate.
  - destruct (nth_error (timers g) i) as [tm|]; [|injection H as <-; apply frame_refl].
    destruct (action tm); unfold run_deferred in H; [|discriminate].
    injection H as <-. frame_trivial.
Qed.

Lemma sf_run (es : list Event) (g g' : t) :
  run g es = Some g' -> session_frame g g'.
Proof.
  revert g. induction es as [|e es IH]; simpl; intros g H.
  - injection H as <-. apply frame_refl.
  - destruct (enabled g e); [|discriminate].
    destruct (handle g e) as [g1|] eqn:Hd; [|discriminate].
    eapply frame_trans; [apply (sf_handle _ _ _ Hd)|apply IH; exact H].
Qed.

(** What repeated vertical moves keep of a paddle. *)
Lemma paddle_moves_keep (s s' : Sprite.t) :
  paddle_moves s s' ->
  same_geometry s s' /\
  Sprite.speed s' = Sprite.speed s /\
  (centred s -> centred s') /\
  (in_rangeX s = true -> Sprite.x s' = Sprite.x s /\ in_rangeX s' = true) /\
  (fitsY s = true -> in_rangeY s = true -> in_rangeY s' = true).
Proof.
  induction 1 as [s|s s' ay m H (G & Sp & C & X & Y)].
  - split; [apply geometry_refl|]. split; [reflexivity|]. split; [auto|].
    split; [intros R; split; [reflexivity|exact R]|auto].
  - destruct (SpriteFacts.move_frame s' (Fin 0) ay m) as (Hb & Hw & Hh & Hs).
    destruct G as (Gw & Gh & Gb).
    split; [repeat split; congruence|].
    split; [congruence|].
    split; [intros _; apply SpriteFacts.move_centred|].
    split.
    + intros R. destruct (X R) as [Ex Rx].
      assert (E : Sprite.x (Sprite.move s' (Fin 0) ay m) = Sprite.x s').
      { rewrite SpriteFacts.move_x.
        change (Sprite.candidateX s' (Fin 0) m) with (Sprite.x s').
        unfold clampX, Num.geb. unfold in_rangeX in Rx. rewrite Rx. reflexivity. }
      split; [congruence|].
      unfold in_rangeX, maxX. rewrite Hb, Hw, E. exact Rx.
    + intros F _.
      unfold in_rangeY, maxY. rewrite Hb, Hh, SpriteFacts.move_y.
      assert (F' : (top (Sprite.bounds s') <=? bottom (Sprite.bounds s') - Sprite.height s')%js
                   = true).
      { unfold fitsY, maxY in F. rewrite Gb, Gh. exact F. }
      destruct (SpriteFacts.clamp_range _ _ (Sprite.candidateY s' ay m) F') as [A B].
      unfold clampY, maxY. rewrite A, B. reflexivity.
Qed.

(** Throughout a session each paddle keeps its width, height, bounds and
    speed, and a paddle whose x is inside its horizontal range keeps that x:
    the paddles only ever move vertically. *)
Theorem paddles_only_move_vertically (es : list Event) (g g' : t) :
  run g es = Some g' ->
  (same_geometry (Player.base (player1 g)) (Player.base (player1 g')) /\
   Sprite.speed (Player.base (player1 g')) = Sprite.speed (Player.base (player1 g)) /\
   (in_rangeX (Player.base (player1 g)) = true ->
    Sprite.x (Player.base (player1 g')) = Sprite.x (Player.base (player1 g)))) /\
  (same_geometry (Player.base (player2 g)) (Player.base (player2 g')) /\
   Sprite.speed (Player.base (player2 g')) = Sprite.speed (Player.base (player2 g)) /\
   (in_rangeX (Player.base (player2 g)) = true ->
    Sprite.x (Player.base (player2 g')) = Sprite.x (Player.base (player2 g)))).
Proof.
  intros H. destruct (sf_run es g g' H) as (_ & _ & _ & (P1 & P2) & _).
  destruct (paddle_moves_keep _ _ P1) as (G1 & S1 & _ & X1 & _).
  destruct (paddle_moves_keep _ _ P2) as (G2 & S2 & _ & X2 & _).
  split; (split; [assumption|split; [assumption|]]); intros R.
  - apply (X1 R).
  - apply (X2 R).
Qed.

Lemma paddles_only_move_vertically_witness :
  run Scenario.start5 Scenario.near_trace = Some Scenario.near_state /\
  in_rangeX (Player.base (player2 Scenario.start5)) = true /\
  Sprite.x (Player.base (player2 Scenario.near_state))
  = Sprite.x (Player.base (player2 Scenario.start5)).
Proof.
  assert (H : run Scenario.start5 Scenario.near_trace = Some Scenario.near_state)
    by (vm_compute; reflexivity).
  assert (R : in_rangeX (Player.base (player2 Scenario.start5)) = true)
    by (vm_compute; reflexivity).
  split; [exact H|]. split; [exact R|].
  apply (proj2 (proj2 (proj2 (paddles_only_move_vertically _ _ _ H))) R).
Defined.

(** A paddle that fits between its bounds and is inside them stays inside
    them whatever events follow. *)
Theorem paddles_stay_in_bounds (es : list Event) (g g' : t) :
  run g es = Some g' ->
  (fitsY (Player.base (player1 g)) = true ->
   in_bounds (Player.base (player1 g)) = true ->
   in_bounds (Player.base (player1 g')) = true) /\
  (fitsY (Player.base (player2 g)) = true ->
   in_bounds (Player.base (player2 g)) = true ->
   in_bounds (Player.base (player2 g')) = true).
Proof.
  intros H. destruct (sf_run es g g' H) as (_ & _ & _ & (P1 & P2) & _).
  destruct (paddle_moves_keep _ _ P1) as (_ & _ & _ & X1 & Y1).
  destruct (paddle_moves_keep _ _ P2) as (_ & _ & _ & X2 & Y2).
  unfold in_bounds.
  split; intros F B; apply andb_prop in B; destruct B as [Bx By]; apply andb_true_intro.
  - split; [apply (X1 Bx)|apply (Y1 F By)].
  - split; [apply (X2 Bx)|apply (Y2 F By)].
Qed.

Lemma paddles_stay_in_bounds_witness :
  run Scenario.start5 Scenario.near_trace = Some Scenario.near_state /\
  fitsY (Player.base (player2 Scenario.start5)) = true /\
  in_bounds (Player.base (player2 Scenario.start5)) = true /\
  in_bounds (Player.base (player2 Scenario.near_state)) = true.
Proof.
  assert (H : run Scenario.start5 Scenario.near_trace = Some Scenario.near_state)
    by (vm_compute; reflexivity).
  assert (F : fitsY (Player.base (player2 Scenario.start5)) = true)
    by (vm_compute; reflexivity).
  assert (B : in_bounds (Player.base (player2 Scenario.start5)) = true)
    by (vm_compute; reflexivity).
  split; [exact H|]. split; [exact F|]. split; [exact B|].
  apply (proj2 (paddles_stay_in_bounds _ _ _ H) F B).
Defined.

(** Once the second player has joined, no event makes the game forget it. *)
Theorem second_player_stays (es : list Event) (g g' : t) :
  run g es = Some g' ->
  in2_active (input2 g) = true -> in2_active (input2 g') = true.
Proof.
  intros H. destruct (sf_run es g g' H) as (_ & A & _). exact A.
Qed.

(** During a session the configuration, the screen and the canvas offset
    are never written, and the ball keeps its width, height and bounds. *)
Theorem session_constants (es : list Event) (g g' : t) :
  run g es = Some g' ->
  settings g' = settings g /\ screen g' = screen g /\ offsetTop g' = offsetTop g /\
  same_geometry (Ball.base (ball g)) (Ball.base (ball g')).
Proof.
  intros H. destruct (sf_run es g g' H) as ((A & B & C) & _ & _ & _ & G & _).
  repeat split; try assumption; apply G.
Qed.

(** No event takes a session back: a phase other than loading is never
    followed by loading, and one other than ready never by ready. *)
Theorem phase_never_goes_back (es : list Event) (g g' : t) :
  run g es = Some g' ->
  (current (state g) <> st_loading -> current (state g') <> st_loading) /\
  (current (state g) <> st_ready -> current (state g') <> st_ready).
Proof.
  intros H. destruct (sf_run es g g' H) as (_ & _ & _ & _ & _ & A & B).
  split; intros N E; apply N; auto.
Qed.

End FrameFacts.

(** ** Ticks, one kind at a time *)

Module TickFacts.
Import Game Session SpriteSpec SessionSpec TickSpec.

Lemma before_scoring_at_collision (g : t) :
  before_scoring g =
  bounce_player2 (collided_name (at_collision g))
    (bounce_player1 (collided_name (at_collision g)) (at_collision g)).
Proof. unfold at_collision. apply GameFacts.before_scoring_eq. Qed.

Lemma at_collision_eq (g : t) :
  at_collision g = bounce_edge (move_player2 (move_computer (move_player1 (check_winner g)))).
Proof. reflexivity. Qed.

Lemma bounce_edge_ball (g : t) :
  Ball.base (ball (bounce_edge g)) = Ball.base (ball g) /\
  Ball.launched (ball (bounce_edge g)) = Ball.launched (ball g) /\
  Ball.dx (ball (bounce_edge g)) = Ball.dx (ball g) /\
  timers (bounce_edge g) = timers g.
Proof. unfold bounce_edge. destruct (_ || _)%bool; repeat split. Qed.

(** Up to the collision query the ball is only touched in its [dy], and
    nothing is scheduled. *)
Lemma at_collision_ball (g : t) :
  Ball.base (ball (at_collision g)) = Ball.base (ball g) /\
  Ball.launched (ball (at_collision g)) = Ball.launched (ball g) /\
  Ball.dx (ball (at_collision g)) = Ball.dx (ball g) /\
  timers (at_collision g) = timers g.
Proof.
  rewrite at_collision_eq.
  destruct (bounce_edge_ball (move_player2 (move_computer (move_player1 (check_winner g)))))
    as (-> & -> & -> & ->).
  rewrite (proj1 (GameFacts.ball_move_player2 _)), (proj2 (GameFacts.ball_move_player2 _)).
  rewrite (proj1 (GameFacts.ball_move_computer _)), (proj2 (GameFacts.ball_move_computer _)).
  rewrite (proj1 (GameFacts.ball_move_player1 _)), (proj2 (GameFacts.ball_move_player1 _)).
  rewrite (proj1 (GameFacts.ball_check_winner _)), (proj2 (GameFacts.ball_check_winner _)).
  repeat split.
Qed.

Lemma bounce_player1_position (c : option PlayerName) (g : t) :
  Sprite.x (Ball.base (ball (bounce_player1 c g))) = Sprite.x (Ball.base (ball g)) /\
  Sprite.y (Ball.base (ball (bounce_player1 c g))) = Sprite.y (Ball.base (ball g)).
Proof. destruct c as [[|]|]; split; reflexivity. Qed.

Lemma bounce_player2_position (c : option PlayerName) (g : t) :
  Sprite.x (Ball.base (ball (bounce_player2 c g))) = Sprite.x (Ball.base (ball g)) /\
  Sprite.y (Ball.base (ball (bounce_player2 c g))) = Sprite.y (Ball.base (ball g)).
Proof. destruct c as [[|]|]; split; reflexivity. Qed.

(** No block before the scoring tests moves the ball. *)
Lemma before_scoring_position (g : t) :
  Sprite.x (Ball.base (ball (before_scoring g))) = Sprite.x (Ball.base (ball g)) /\
  Sprite.y (Ball.base (ball (before_scoring g))) = Sprite.y (Ball.base (ball g)).
Proof.
  rewrite before_scoring_at_collision.
  rewrite (proj1 (bounce_player2_position _ _)), (proj2 (bounce_player2_position _ _)).
  rewrite (proj1 (bounce_player1_position _ _)), (proj2 (bounce_player1_position _ _)).
  rewrite (proj1 (at_collision_ball g)). split; reflexivity.
Qed.

Lemma score_left_idle (k : t) : touches_left k = false -> score_left k = k.
Proof. intros H. unfold score_left. rewrite H. reflexivity. Qed.

Lemma stopped_touches_nothing (k : t) :
  Ball.launched (ball k) = false -> touches_left k = false /\ touches_right k = false.
Proof. intros H. unfold touches_left, touches_right. rewrite H. split; reflexivity. Qed.

Lemma ready_to_play_keeps (g : t) :
  player1 (ready_to_play g) = player1 g /\ player2 (ready_to_play g) = player2 g /\
  ball (ready_to_play g) = ball g /\ timers (ready_to_play g) = timers g /\
  input (ready_to_play g) = input g /\ input2 (ready_to_play g) = input2 g /\
  frame (ready_to_play g) = frame g /\
  current (state (ready_to_play g)) = current (state g).
Proof.
  unfold ready_to_play.
  destruct (current (state g)) eqn:E; cbn [Phase_eqb andb]; rewrite ?E;
    try (repeat split; reflexivity).
  destruct (prev (state g)) as [[| | | |]|]; repeat split; try reflexivity;
    try exact E; try (symmetry; exact E).
Qed.

Lemma requestFrame_inputs (g : t) (now : num) (r : bool) :
  input (requestFrame g now r) = input g /\ input2 (requestFrame g now r) = input2 g /\
  state (requestFrame g now r) = state g.
Proof. repeat split. Qed.

(** A tick outside the phase play moves nothing: the paddles, the ball, the
    timers, the inputs and the phase are after it what they were before. *)
Theorem ticks_outside_play_are_idle (g : t) (now : num) :
  current (state g) <> st_play ->
  player1 (play g now) = player1 g /\ player2 (play g now) = player2 g /\
  ball (play g now) = ball g /\ timers (play g now) = timers g /\
  input (play g now) = input g /\ input2 (play g now) = input2 g /\
  current (state (play g now)) = current (state g).
Proof.
  intros H. unfold play. cbv zeta.
  destruct (ready_to_play_keeps g) as (R1 & R2 & R3 & R4 & R5 & R6 & _ & R8).
  assert (E : game_play (ready_to_play g) = ready_to_play g).
  { unfold game_play. rewrite R8.
    destruct (current (state g)); try reflexivity. contradiction H. reflexivity. }
  rewrite E.
  destruct (GameFacts.requestFrame_keeps (ready_to_play g) now false) as (-> & -> & -> & ->).
  destruct (requestFrame_inputs (ready_to_play g) now false) as (-> & -> & ->).
  rewrite R1, R2, R3, R4, R5, R6, R8. repeat split.
Qed.

Lemma ticks_outside_play_are_idle_witness :
  current (state Scenario.start5) <> st_play /\
  player1 (play Scenario.start5 (Fin 16)) = player1 Scenario.start5 /\
  ball (play Scenario.start5 (Fin 16)) = ball Scenario.start5.
Proof.
  assert (H : current (state Scenario.start5) <> st_play).
  { intros E. vm_compute in E. discriminate E. }
  split; [exact H|].
  destruct (ticks_outside_play_are_idle Scenario.start5 (Fin 16) H) as (P & _ & B & _).
  split; [exact P|exact B].
Defined.

Lemma caught (h : t) :
  let k := bounce_player2 (Some player2_name) (bounce_player1 (Some player2_name) h) in
  Ball.launched (ball k) = false /\
  Ball.dx (ball k) = Fin 0 /\
  Ball.base (ball k)
  = Sprite.set_speed (Ball.base (ball h)) (Sprite.speed (Ball.base (ball h)) + Fin 10)%js /\
  timers k = timers h ++ [mkTimer (Fin 1000) DeferredReset].
Proof. cbv zeta. repeat split. Qed.

(** The catch.  On a tick of play whose collision query returns player2,
    the ball is stopped where it is with its speed raised by 10, the session
    reset is scheduled 1000 ms ahead, and no point is scored. *)
Theorem catch_tick (g : t) (now : num) :
  current (state g) = st_play ->
  collided_name (at_collision g) = Some player2_name ->
  let g' := play g now in
  Ball.launched (ball g') = false /\
  Ball.dx (ball g') = Fin 0 /\
  Sprite.speed (Ball.base (ball g')) = (Sprite.speed (Ball.base (ball g)) + Fin 10)%js /\
  Sprite.x (Ball.base (ball g')) = Sprite.x (Ball.base (ball g)) /\
  Sprite.y (Ball.base (ball g')) = Sprite.y (Ball.base (ball g)) /\
  timers g' = timers g ++ [mkTimer (Fin 1000) DeferredReset] /\
  Player.score (player1 g') = Player.score (player1 g) /\
  Player.score (player2 g') = Player.score (player2 g).
Proof.
  intros Hplay C. cbv zeta.
  rewrite (GameFacts.play_in_play g now Hplay), GameFacts.play_block_eq.
  destruct (GameFacts.frame_before_scoring g) as (_ & _ & _ & _ & _ & F1 & F2 & _).
  pose proof (before_scoring_at_collision g) as E. rewrite C in E.
  destruct (at_collision_ball g) as (Ab & _ & _ & At).
  assert (K : Ball.launched (ball (before_scoring g)) = false /\
              Ball.dx (ball (before_scoring g)) = Fin 0 /\
              Ball.base (ball (before_scoring g))
              = Sprite.set_speed (Ball.base (ball (at_collision g)))
                  (Sprite.speed (Ball.base (ball (at_collision g))) + Fin 10)%js /\
              timers (before_scoring g)
              = timers (at_collision g) ++ [mkTimer (Fin 1000) DeferredReset]).
  { rewrite E. apply caught. }
  revert K F1 F2. generalize (before_scoring g). intros k (L & Dx & Bk & Tk) F1 F2.
  destruct (stopped_touches_nothing k L) as [TL _].
  rewrite (score_left_idle k TL).
  destruct (GameFacts.finish_tick k now L) as (Eb & Et & E1 & E2). cbv zeta in Eb, Et, E1, E2.
  rewrite Eb, Et, E1, E2, L, Dx, Bk, Tk, Ab, At, F1, F2.
  repeat split.
Qed.

Lemma catch_tick_witness :
  current (state catch_state) = st_play /\
  collided_name (at_collision catch_state) = Some player2_name /\
  Ball.launched (ball (play catch_state (Fin 360))) = false /\
  Player.score (player2 (play catch_state (Fin 360))) = Player.score (player2 catch_state).
Proof.
  assert (H1 : current (state catch_state) = st_play) by (vm_compute; reflexivity).
  assert (H2 : collided_name (at_collision catch_state) = Some player2_name)
    by (vm_compute; reflexivity).
  split; [exact H1|]. split; [exact H2|].
  destruct (catch_tick catch_state (Fin 360) H1 H2) as (L & _ & _ & _ & _ & _ & _ & S).
  split; [exact L|exact S].
Defined.

(** Scoring on the right bound.  On a tick of play whose left-side test
    fails and whose right-side test holds, player2 gets one point, the ball's
    speed is reset to the configured [ballSpeed], and the ball is stopped
    where it is; nothing is scheduled: no relaunch and no session reset. *)
Theorem right_bound_tick (g : t) (now : num) :
  current (state g) = st_play ->
  touches_left (before_scoring g) = false ->
  touches_right (before_scoring g) = true ->
  let g' := play g now in
  Player.score (player2 g') = (Player.score (player2 g) + 1)%Z /\
  Player.score (player1 g') = Player.score (player1 g) /\
  Sprite.speed (Ball.base (ball g')) = ParseInt.parseInt (Settings.ballSpeed (settings g)) /\
  Ball.launched (ball g') = false /\
  Ball.dx (ball g') = Fin 0 /\
  Sprite.x (Ball.base (ball g')) = Sprite.x (Ball.base (ball g)) /\
  Sprite.y (Ball.base (ball g')) = Sprite.y (Ball.base (ball g)) /\
  timers g' = timers g.
Proof.
  intros Hplay TL TR. cbv zeta.
  rewrite (GameFacts.play_in_play g now Hplay), GameFacts.play_block_eq.
  destruct (GameFacts.frame_before_scoring g) as (Fs & _ & _ & _ & _ & F1 & F2 & _).
  destruct (before_scoring_position g) as [Px Py].
  pose proof (GameFacts.timers_before_scoring g) as Ft.
  revert TL TR Fs F1 F2 Px Py Ft. generalize (before_scoring g).
  intros k TL TR Fs F1 F2 Px Py Ft.
  assert (L : Ball.launched (ball k) = true).
  { unfold touches_right in TR. apply andb_prop in TR. apply TR. }
  specialize (Ft L).
  rewrite (score_left_idle k TL).
  destruct (GameFacts.requestFrame_keeps (move_ball (score_right k)) now false)
    as (-> & -> & -> & ->).
  assert (S : score_right k =
              with_ball
                (reset_ball_speed (with_player2 k (Player.add_score (player2 k) 1)))
                (Ball.stop
                   (ball (reset_ball_speed (with_player2 k (Player.add_score (player2 k) 1)))))).
  { unfold score_right. rewrite TR. reflexivity. }
  rewrite S.
  unfold move_ball, Ball.move.
  cbn [ball with_ball Ball.stop Ball.launched negb timers player1 player2
       reset_ball_speed with_player2 Ball.with_base Ball.base Ball.dx Sprite.set_speed
       Sprite.speed Sprite.x Sprite.y Player.add_score Player.score settings].
  rewrite Fs, F1, F2, Px, Py, Ft. repeat split.
Qed.

Lemma right_bound_tick_witness :
  current (state right_state) = st_play /\
  touches_left (before_scoring right_state) = false /\
  touches_right (before_scoring right_state) = true /\
  Player.score (player2 (play right_state (Fin 6000)))
  = (Player.score (player2 right_state) + 1)%Z /\
  timers (play right_state (Fin 6000)) = timers right_state.
Proof.
  assert (H1 : current (state right_state) = st_play) by (vm_compute; reflexivity).
  assert (H2 : touches_left (before_scoring right_state) = false)
    by (vm_compute; reflexivity).
  assert (H3 : touches_right (before_scoring right_state) = true)
    by (vm_compute; reflexivity).
  split; [exact H1|]. split; [exact H2|]. split; [exact H3|].
  destruct (right_bound_tick right_state (Fin 6000) H1 H2 H3)
    as (S & _ & _ & _ & _ & _ & _ & T).
  split; [exact S|exact T].
Defined.

(** *** Points *)

Lemma players_relaunchBall (g : t) (side : Side) :
  player1 (relaunchBall g side) = player1 g /\ player2 (relaunchBall g side) = player2 g /\
  input (relaunchBall g side) = input g.
Proof.
  unfold relaunchBall. destruct (Ball.launched (ball g)); [repeat split|].
  destruct side; repeat split.
Qed.

Lemma players_pause (g : t) (now : num) :
  player1 (pause g now) = player1 g /\ player2 (pause g now) = player2 g /\
  input (pause g now) = input g.
Proof.
  unfold pause. destruct (negb _); [repeat split|].
  cbn. destruct (negb (paused (state g))); repeat split.
Qed.

Lemma players_keys_player1 (g : t) (keydown : bool) (code : Key) :
  player1 (keys_player1 g keydown code) = player1 g /\
  player2 (keys_player1 g keydown code) = player2 g /\
  in_current (input (keys_player1 g keydown code)) = in_current (input g).
Proof.
  unfold keys_player1. destruct keydown, code; try (repeat split; fail);
    cbv zeta; destruct (_ && _)%bool; try (repeat split; fail);
    destruct (players_relaunchBall g side_right) as (-> & -> & ->); repeat split.
Qed.

Lemma players_keys_player2 (g : t) (keydown : bool) (code : Key) :
  player1 (keys_player2 g keydown code) = player1 g /\
  player2 (keys_player2 g keydown code) = player2 g /\
  input (keys_player2 g keydown code) = input g.
Proof.
  unfold keys_player2. destruct keydown, code; try (repeat split; fail);
    cbv zeta; destruct (_ && _)%bool; try (repeat split; fail);
    destruct (players_relaunchBall g side_left) as (-> & -> & ->); repeat split.
Qed.

Lemma players_join_player2 (g : t) (keydown : bool) (code : Key) :
  player1 (join_player2 g keydown code) = player1 g /\
  player2 (join_player2 g keydown code) = player2 g /\
  input (join_player2 g keydown code) = input g.
Proof.
  unfold join_player2. destruct keydown, code; try (repeat split; fail);
    destruct (negb _); repeat split.
Qed.

Lemma players_pause_key (g : t) (keydown : bool) (code : Key) (now : num) :
  player1 (pause_key g keydown code now) = player1 g /\
  player2 (pause_key g keydown code now) = player2 g /\
  input (pause_key g keydown code now) = input g.
Proof.
  unfold pause_key. destruct keydown, code; try (repeat split; fail).
  apply players_pause.
Qed.

Lemma players_handleKeyboardInput (g g' : t) (keydown : bool) (code : Key) (now : num) :
  handleKeyboardInput g keydown code now = Some g' ->
  player1 g' = player1 g /\ player2 g' = player2 g /\
  in_current (input g') = keyboard.
Proof.
  unfold handleKeyboardInput. cbv zeta.
  set (h := pause_key _ keydown code now).
  assert (F : player1 h = player1 g /\ player2 h = player2 g /\
              in_current (input h) = keyboard).
  { subst h.
    destruct (players_pause_key
                (join_player2 (keys_player2 (keys_player1 (keyboard_source g) keydown code)
                                 keydown code) keydown code) keydown code now)
      as (-> & -> & ->).
    destruct (players_join_player2
                (keys_player2 (keys_player1 (keyboard_source g) keydown code) keydown code)
                keydown code) as (-> & -> & ->).
    destruct (players_keys_player2 (keys_player1 (keyboard_source g) keydown code)
                keydown code) as (-> & -> & ->).
    destruct (players_keys_player1 (keyboard_source g) keydown code) as (-> & -> & ->).
    repeat split. }
  clearbody h.
  destruct keydown, code; try (intros [= <-]; exact F).
  destruct (includes_win _); [discriminate|]. intros [= <-]. exact F.
Qed.

Lemma players_handleClicks (g g' : t) (target : Target) (now : num) :
  handleClicks g target now = Some g' ->
  player1 g' = player1 g /\ player2 g' = player2 g /\ input g' = input g.
Proof.
  unfold handleClicks.
  destruct (Phase_eqb (current (state g)) st_loading); [intros [= <-]; repeat split|].
  destruct target.
  - intros [= <-]. repeat split.
  - intros [= <-]. apply players_pause.
  - intros [= <-]. repeat split.
  - destruct (Phase_eqb (current (state g)) st_play && onRightSide g)%bool;
      destruct (includes_win _); try discriminate; intros [= <-];
      [apply players_relaunchBall|repeat split].
Qed.

Lemma player2_move_ball (g : t) : player2 (move_ball g) = player2 g.
Proof. reflexivity. Qed.

(** The two scoring blocks together award nothing or one point. *)
Lemma scoring_blocks_score (k : t) :
  Player.score (player2 (score_right (score_left k))) = Player.score (player2 k) \/
  Player.score (player2 (score_right (score_left k))) = (Player.score (player2 k) + 1)%Z.
Proof.
  destruct (touches_left k) eqn:TL.
  - destruct (GameFacts.score_left_fired k TL) as (L & _ & _ & _ & _ & S2 & _).
    destruct (stopped_touches_nothing _ L) as [_ TR].
    right. unfold score_right. rewrite TR. exact S2.
  - rewrite (score_left_idle k TL). unfold score_right.
    destruct (touches_right k); [right|left]; reflexivity.
Qed.

(** Points come one at a time and only from ticks: an event changes
    player2's score by nothing or by one, and every event other than an
    animation frame leaves both players as they are. *)
Theorem points_come_one_at_a_time (g g' : t) (e : Event) :
  handle g e = Some g' ->
  (Player.score (player2 g') = Player.score (player2 g) \/
   Player.score (player2 g') = (Player.score (player2 g) + 1)%Z) /\
  match e with
  | AnimationFrame _ => True
  | _ => player1 g' = player1 g /\ player2 g' = player2 g
  end.
Proof.
  destruct e; unfold handle; intros H.
  - injection H as <-. split; [|exact I].
    unfold play. cbv zeta.
    rewrite (proj2 (proj2 (proj2 (GameFacts.requestFrame_keeps _ now false)))).
    rewrite <- (proj1 (proj2 (ready_to_play_keeps g))).
    generalize (ready_to_play g). intros h.
    unfold game_play. destruct (Phase_eqb (current (state h)) st_play); [|left; reflexivity].
    rewrite GameFacts.play_block_eq, player2_move_ball.
    destruct (GameFacts.frame_before_scoring h) as (_ & _ & _ & _ & _ & _ & <- & _).
    apply scoring_blocks_score.
  - destruct (players_handleKeyboardInput _ _ _ _ _ H) as (P1 & P2 & _).
    rewrite P2. split; [left; reflexivity|split; [exact P1|reflexivity]].
  - destruct (players_handleKeyboardInput _ _ _ _ _ H) as (P1 & P2 & _).
    rewrite P2. split; [left; reflexivity|split; [exact P1|reflexivity]].
  - injection H as <-. split; [left; reflexivity|split; reflexivity].
  - injection H as <-. split; [left; reflexivity|split; reflexivity].
  - destruct (players_handleClicks _ _ _ _ H) as (P1 & P2 & _).
    rewrite P2. split; [left; reflexivity|split; [exact P1|reflexivity]].
  - discriminate.
  - destruct (nth_error (timers g) i) as [tm|];
      [|injection H as <-; split; [left; reflexivity|split; reflexivity]].
    destruct (action tm); unfold run_deferred in H; [|discriminate].
    injection H as <-. split; [left; reflexivity|split; reflexivity].
Qed.

Lemma points_come_one_at_a_time_witness :
  handle right_state (AnimationFrame (Fin 6000)) = Some (play right_state (Fin 6000)) /\
  (Player.score (player2 (play right_state (Fin 6000))) = Player.score (player2 right_state) \/
   Player.score (player2 (play right_state (Fin 6000)))
   = (Player.score (player2 right_state) + 1)%Z).
Proof.
  split; [reflexivity|].
  apply (proj1 (points_come_one_at_a_time right_state _ (AnimationFrame (Fin 6000)) eq_refl)).
Defined.

(** *** The paddles in every state of a session *)

Lemma paddles_ok_frame (g g' : t) :
  paddles_ok g -> session_frame g g' -> paddles_ok g'.
Proof.
  intros (N1 & N2 & [C1 T1] & [C2 T2] & S1 & S2 & L)
         (_ & _ & (_ & M1 & M2 & _) & (P1 & P2) & _ & L' & _).
  destruct (FrameFacts.paddle_moves_keep _ _ P1) as (_ & E1 & K1 & _).
  destruct (FrameFacts.paddle_moves_keep _ _ P2) as (_ & E2 & K2 & _).
  unfold paddles_ok, sprite_inv.
  rewrite M1, M2, E1, E2.
  split; [exact N1|]. split; [exact N2|].
  split; [split; [exact (K1 C1)|exact T1]|].
  split; [split; [exact (K2 C2)|exact T2]|].
  split; [exact S1|]. split; [exact S2|].
  intros E. apply L. apply L'. exact E.
Qed.

(** In every state a session reaches: player1 and player2 carry their own
    names, each paddle's centre is where its position and size put it, each
    paddle's speed is 50, and the phase is not loading. *)
Theorem paddles_are_sound (g : t) : reachable g -> paddles_ok g.
Proof.
  induction 1 as [bt now|g e g' R IH En Hd].
  - apply (paddles_ok_frame (create_characters bt)); [|apply FrameFacts.sf_play].
    unfold paddles_ok, sprite_inv.
    repeat split; try reflexivity. discriminate.
  - apply (paddles_ok_frame g g' IH). apply (FrameFacts.sf_handle g g' e Hd).
Qed.

Lemma paddles_are_sound_witness :
  reachable Scenario.near_state /\ paddles_ok Scenario.near_state.
Proof.
  assert (R : reachable Scenario.near_state).
  { apply (SessionFacts.run_reachable Scenario.near_trace Scenario.start5).
    - apply reach_create.
    - vm_compute. reflexivity. }
  split; [exact R|]. apply (paddles_are_sound _ R).
Defined.

End TickFacts.

(** ** Controls: pause, relaunch, pointer, input sources *)

Module ControlFacts.
Import Game Session SpriteSpec SessionSpec TickSpec.

Lemma second_player_stays_witness :
  run joined_state joined_trace = Some (Scenario.after joined_state joined_trace) /\
  in2_active (input2 joined_state) = true /\
  in2_active (input2 (Scenario.after joined_state joined_trace)) = true.
Proof.
  assert (H : run joined_state joined_trace = Some (Scenario.after joined_state joined_trace))
    by (vm_compute; reflexivity).
  assert (A : in2_active (input2 joined_state) = true) by (vm_compute; reflexivity).
  split; [exact H|]. split; [exact A|].
  apply (FrameFacts.second_player_stays _ _ _ H A).
Defined.

Lemma session_constants_witness :
  run Scenario.start5 Scenario.left_trace = Some Scenario.left_state /\
  settings Scenario.left_state = settings Scenario.start5 /\
  screen Scenario.left_state = screen Scenario.start5.
Proof.
  assert (H : run Scenario.start5 Scenario.left_trace = Some Scenario.left_state)
    by (vm_compute; reflexivity).
  split; [exact H|].
  destruct (FrameFacts.session_constants _ _ _ H) as (A & B & _).
  split; [exact A|exact B].
Defined.

Lemma phase_never_goes_back_witness :
  run Scenario.tie_state [AnimationFrame (Fin 16); Click target_other (Fin 20)] = None /\
  run Scenario.tie_state [AnimationFrame (Fin 16); Click target_pause (Fin 20)]
  = Some (Scenario.after Scenario.tie_state
            [AnimationFrame (Fin 16); Click target_pause (Fin 20)]) /\
  current (state Scenario.tie_state) <> st_ready /\
  current (state (Scenario.after Scenario.tie_state
                    [AnimationFrame (Fin 16); Click target_pause (Fin 20)])) <> st_ready.
Proof.
  assert (H : run Scenario.tie_state [AnimationFrame (Fin 16); Click target_pause (Fin 20)]
              = Some (Scenario.after Scenario.tie_state
                        [AnimationFrame (Fin 16); Click target_pause (Fin 20)]))
    by (vm_compute; reflexivity).
  assert (N : current (state Scenario.tie_state) <> st_ready).
  { intros E. vm_compute in E. discriminate E. }
  split; [vm_compute; reflexivity|]. split; [exact H|]. split; [exact N|].
  apply (proj2 (FrameFacts.phase_never_goes_back _ _ _ H) N).
Defined.



(** [relaunchBall(side)] is ignored while the ball is launched.  On a
    stopped ball it resets the speed to the configured [ballSpeed], puts the
    ball at the y of the paddle of that side with its vertical centre
    recomputed, and launches it at once: away from that paddle, moved in that
    direction by the paddle's width plus its own; nothing is scheduled and the
    paddles are not touched. *)
Theorem relaunch_from_a_paddle (g : t) (side : Side) :
  (Ball.launched (ball g) = true -> relaunchBall g side = g) /\
  (Ball.launched (ball g) = false ->
   let p := match side with side_right => player1 g | side_left => player2 g end in
   let d := match side with side_right => Fin (-1) | side_left => Fin 1 end in
   let b := ball (relaunchBall g side) in
   Ball.launched b = true /\ Ball.dx b = d /\ Ball.dy b = Ball.dy (ball g) /\
   Sprite.speed (Ball.base b) = ParseInt.parseInt (Settings.ballSpeed (settings g)) /\
   Sprite.y (Ball.base b) = Sprite.y (Player.base p) /\
   Sprite.cy (Ball.base b)
   = (Sprite.y (Player.base p) + Sprite.height (Ball.base (ball g)) / Fin 2)%js /\
   Sprite.x (Ball.base b)
   = (Sprite.x (Ball.base (ball g))
      + (Sprite.width (Player.base p) + Sprite.width (Ball.base (ball g))) * d)%js /\
   timers (relaunchBall g side) = timers g /\
   player1 (relaunchBall g side) = player1 g /\
   player2 (relaunchBall g side) = player2 g).
Proof.
  split; intros L; unfold relaunchBall; rewrite L; [reflexivity|].
  destruct side; cbv zeta; repeat split.
Qed.

Lemma relaunch_from_a_paddle_witness :
  Ball.launched (ball Scenario.tie_state) = false /\
  Ball.launched (ball (relaunchBall Scenario.tie_state side_right)) = true /\
  Ball.dx (ball (relaunchBall Scenario.tie_state side_right)) = Fin (-1).
Proof.
  assert (L : Ball.launched (ball Scenario.tie_state) = false) by (vm_compute; reflexivity).
  split; [exact L|].
  destruct (proj2 (relaunch_from_a_paddle Scenario.tie_state side_right) L)
    as (A & B & _).
  split; [exact A|exact B].
Defined.

(** Pointer control.  With the mouse or the touch screen as the active
    source, the input block of player 1 moves the right paddle by
    [diffY / 100 * speed * 1], where [diffY] is what the pointer lies below
    the paddle's centre, and brings the result back into
    [[top, bottom - height]] when it falls outside; a [diffY / 100] equal to
    0 leaves y as the candidate.  The frame's scale plays no part, the centre
    follows, an x inside its range is kept, and nothing but player1 changes.
    A paddle inside its vertical range with a positive speed never moves away
    from the pointer. *)
Theorem pointer_sets_paddle (g : t) (py0 : num) :
  (in_current (input g) = mouse /\ py0 = mouse_y (input g)) \/
  (in_current (input g) = touch /\ py0 = touch_y (input g)) ->
  let p := Player.base (player1 g) in
  let diffY :=
    (py0 - offsetTop g - Sprite.y p - Sprite.height p / Fin 2)%js in
  let axis := (diffY / Fin 100)%js in
  let c :=
    if (axis === Fin 0)%js then Sprite.y p
    else (Sprite.y p + axis * Sprite.speed p * Fin 1)%js in
  let lo := top (Sprite.bounds p) in
  let hi := (bottom (Sprite.bounds p) - Sprite.height p)%js in
  let g' := move_player1 g in
  let p' := Player.base (player1 g') in
  (Sprite.y p'
   = (if ((c >=? lo) && (c <=? hi))%js%bool then c
      else if (c <? lo)%js then lo else hi) /\
   Sprite.cy p' = (Sprite.y p' + Sprite.height p / Fin 2)%js /\
   (in_rangeX p = true -> Sprite.x p' = Sprite.x p) /\
   Sprite.direction p' = Sprite.direction p /\
   Player.score (player1 g') = Player.score (player1 g) /\
   player2 g' = player2 g /\ ball g' = ball g /\ timers g' = timers g /\
   input g' = input g /\ state g' = state g) /\
  (forall y0 d s : Q,
      Sprite.y p = Fin y0 -> diffY = Fin d -> Sprite.speed p = Fin s -> 0 < s ->
      in_rangeY p = true ->
      (0 <= d -> (Sprite.y p <=? Sprite.y p')%js = true) /\
      (d <= 0 -> (Sprite.y p' <=? Sprite.y p)%js = true)).
Proof.
  intros Hsrc. cbv zeta.
  assert (E : move_player1 g
              = with_player1 g
                  (Player.move (player1 g) (Fin 0)
                     (pointer_offset g py0 / Fin 100)%js (Fin 1))).
  { rewrite FrameFacts.move_player1_eq.
    destruct Hsrc as [[-> ->]|[-> ->]]; reflexivity. }
  rewrite E. clear E Hsrc.
  cbn [player1 player2 ball timers input state with_player1 Player.move Player.base
       Player.score].
  fold (pointer_offset g py0).
  set (p := Player.base (player1 g)).
  set (a := (pointer_offset g py0 / Fin 100)%js).
  assert (Ey : Sprite.y (Sprite.move p (Fin 0) a (Fin 1))
               = clampY p (Sprite.candidateY p a (Fin 1)))
    by apply SpriteFacts.move_y.
  split.
  - split; [exact Ey|].
    split; [rewrite (proj2 (SpriteFacts.move_centred p (Fin 0) a (Fin 1)));
            rewrite (proj1 (proj2 (proj2 (SpriteFacts.move_frame p (Fin 0) a (Fin 1)))));
            reflexivity|].
    split.
    { intros Hx. rewrite SpriteFacts.move_x.
      unfold Sprite.candidateX. cbn [Num.seq].
      unfold in_rangeX in Hx. unfold clampX, Num.geb.
      change (Qeq_bool 0 0) with true. cbv iota. rewrite Hx. reflexivity. }
    split; [|repeat split].
    rewrite SpriteFacts.move_unfold. reflexivity.
  - intros y0 d s Hy Hd Hs Spos Hr.
    rewrite Ey. unfold clampY, maxY.
    unfold in_rangeY, maxY in Hr. apply andb_prop in Hr. destruct Hr as [R1 R2].
    rewrite Hy in R1, R2 |- *.
    assert (C : exists c : Q,
               Sprite.candidateY p a (Fin 1) = Fin c /\
               (0 <= d -> y0 <= c) /\ (d <= 0 -> c <= y0)).
    { unfold Sprite.candidateY, a. rewrite Hd, Hs, Hy.
      change (Fin d / Fin 100)%js with (Fin (d / 100)).
      cbn [Num.seq Num.mul Num.add].
      destruct (Qeq_bool (d / 100) 0).
      - exists y0. split; [reflexivity|]. split; intros; lra.
      - eexists. split; [reflexivity|].
        assert (Hh : d / 100 == d * (1 # 100)) by field.
        rewrite Hh. split; intros; nra. }
    destruct C as (c & Ec & A & B). rewrite Ec.
    destruct (SpriteExtra.clamp_between _ _ y0 c R1 R2) as (q & Eq & A' & B').
    rewrite Eq. split; intros H; apply leb_Fin.
    + specialize (A H). specialize (A' A). lra.
    + specialize (B H). specialize (B' B). lra.
Qed.

Lemma pointer_sets_paddle_witness :
  in_current (input pointer_state) = mouse /\
  in_rangeY (Player.base (player1 pointer_state)) = true /\
  (Sprite.y (Player.base (player1 (move_player1 pointer_state))) === Fin 535)%js = true /\
  (Sprite.y (Player.base (player1 pointer_state))
   <=? Sprite.y (Player.base (player1 (move_player1 pointer_state))))%js = true.
Proof.
  assert (H1 : in_current (input pointer_state) = mouse) by (vm_compute; reflexivity).
  assert (H2 : Sprite.speed (Player.base (player1 pointer_state)) = Fin 50)
    by (vm_compute; reflexivity).
  assert (H3 : in_rangeY (Player.base (player1 pointer_state)) = true)
    by (vm_compute; reflexivity).
  assert (H4 : Sprite.y (Player.base (player1 pointer_state)) = Fin (3880000 # 8000))
    by (vm_compute; reflexivity).
  assert (H5 : pointer_offset pointer_state (mouse_y (input pointer_state))
               = Fin (3200000000 # 32000000)) by (vm_compute; reflexivity).
  assert (H6 : (Sprite.y (Player.base (player1 (move_player1 pointer_state))) === Fin 535)%js
               = true) by (vm_compute; reflexivity).
  split; [exact H1|]. split; [exact H3|]. split; [exact H6|].
  refine (proj1 (proj2 (pointer_sets_paddle pointer_state (mouse_y (input pointer_state))
                          (or_introl (conj H1 eq_refl)))
                   _ _ 50 H4 H5 H2 _ H3) _); [reflexivity|].
  unfold Qle. simpl. lia.
Defined.

Lemma inputs_scoring (k : t) :
  input (score_left k) = input k /\ input (score_right k) = input k.
Proof.
  split.
  - unfold score_left. destruct (touches_left k); [|reflexivity].
    cbn. destruct (in2_active (input2 k)); reflexivity.
  - unfold score_right. destruct (touches_right k); reflexivity.
Qed.

Lemma input_move_ball (k : t) : input (move_ball k) = input k.
Proof. reflexivity. Qed.

Lemma input_play (g : t) (now : num) : input (play g now) = input g.
Proof.
  unfold play. cbv zeta.
  rewrite (proj1 (TickFacts.requestFrame_inputs _ now false)).
  destruct (TickFacts.ready_to_play_keeps g) as (_ & _ & _ & _ & <- & _).
  generalize (ready_to_play g). intros h.
  unfold game_play. destruct (Phase_eqb (current (state h)) st_play); [|reflexivity].
  rewrite GameFacts.play_block_eq, input_move_ball.
  rewrite (proj2 (inputs_scoring _)), (proj1 (inputs_scoring _)).
  destruct (GameFacts.frame_before_scoring h) as (_ & _ & E & _). exact E.
Qed.

(** The active input source is the one of the latest input event: a key
    event makes it the keyboard, a mouse move the mouse and a touch move the
    touch screen, each recording its y; ticks, clicks and timers leave the
    whole input record as it is. *)
Theorem active_source_follows_events (g g' : t) (e : Event) :
  handle g e = Some g' ->
  match e with
  | KeyDown _ _ | KeyUp _ _ => in_current (input g') = keyboard
  | MouseMove clientY =>
      in_current (input g') = mouse /\ mouse_y (input g') = clientY /\
      in_up (input g') = in_up (input g) /\ in_down (input g') = in_down (input g)
  | TouchMove clientY =>
      in_current (input g') = touch /\ touch_y (input g') = clientY /\
      in_up (input g') = in_up (input g) /\ in_down (input g') = in_down (input g)
  | _ => input g' = input g
  end.
Proof.
  destruct e; unfold handle; intros H.
  - injection H as <-. apply input_play.
  - apply (TickFacts.players_handleKeyboardInput _ _ _ _ _ H).
  - apply (TickFacts.players_handleKeyboardInput _ _ _ _ _ H).
  - injection H as <-. repeat split.
  - injection H as <-. repeat split.
  - apply (TickFacts.players_handleClicks _ _ _ _ H).
  - discriminate.
  - destruct (nth_error (timers g) i) as [tm|]; [|injection H as <-; reflexivity].
    destruct (action tm); unfold run_deferred in H; [|discriminate].
    injection H as <-. reflexivity.
Qed.

Lemma active_source_follows_events_witness :
  handle Scenario.start5 (MouseMove (Fin 600))
  = Some (handleMouseMove Scenario.start5 (Fin 600)) /\
  in_current (input (handleMouseMove Scenario.start5 (Fin 600))) = mouse.
Proof.
  split; [reflexivity|].
  apply (proj1 (active_source_follows_events Scenario.start5 _ (MouseMove (Fin 600))
                  eq_refl)).
Defined.

Lemma bounced (h : t) :
  let k := bounce_player2 (Some player1_name) (bounce_player1 (Some player1_name) h) in
  Ball.dx (ball k) = Fin (-1) /\
  Ball.base (ball k)
  = Sprite.set_speed (Ball.base (ball h)) (Sprite.speed (Ball.base (ball h)) + Fin 1)%js /\
  Ball.launched (ball k) = Ball.launched (ball h) /\
  Ball.dy (ball k) = Ball.dy (ball h) /\
  timers k = timers h.
Proof. cbv zeta. repeat split. Qed.

Lemma timers_move_ball (k : t) : timers (move_ball k) = timers k.
Proof. reflexivity. Qed.

Lemma score_right_idle (k : t) : touches_right k = false -> score_right k = k.
Proof. intros H. unfold score_right. rewrite H. reflexivity. Qed.

(** The bounce.  On a tick of play whose collision query returns player1,
    the ball is sent to the left with its speed raised by 1, where it is and
    with nothing scheduled; and when neither scoring test holds after that,
    the tick ends with this ball moved once at the frame's scale. *)
Theorem bounce_tick (g : t) (now : num) :
  current (state g) = st_play ->
  collided_name (at_collision g) = Some player1_name ->
  let k := before_scoring g in
  (Ball.dx (ball k) = Fin (-1) /\
   Sprite.speed (Ball.base (ball k)) = (Sprite.speed (Ball.base (ball g)) + Fin 1)%js /\
   Sprite.x (Ball.base (ball k)) = Sprite.x (Ball.base (ball g)) /\
   Sprite.y (Ball.base (ball k)) = Sprite.y (Ball.base (ball g)) /\
   Ball.launched (ball k) = Ball.launched (ball g) /\
   timers k = timers g) /\
  (touches_left k = false -> touches_right k = false ->
   ball (play g now) = Ball.move (ball k) (scale (frame g)) /\
   timers (play g now) = timers g).
Proof.
  intros Hplay C. cbv zeta.
  rewrite (GameFacts.play_in_play g now Hplay), GameFacts.play_block_eq.
  destruct (GameFacts.frame_before_scoring g) as (_ & _ & _ & _ & Ff & _).
  pose proof (TickFacts.before_scoring_at_collision g) as E. rewrite C in E.
  destruct (TickFacts.at_collision_ball g) as (Ab & Al & _ & At).
  pose proof (bounced (at_collision g)) as K. cbv zeta in K. rewrite <- E in K.
  revert K Ff. generalize (before_scoring g). intros k (Dx & Bk & L & _ & Tk) Ff.
  split.
  - rewrite Dx, Bk, L, Tk, Ab, Al, At. repeat split.
  - intros TL TR.
    rewrite (TickFacts.score_left_idle k TL), (score_right_idle k TR).
    destruct (GameFacts.requestFrame_keeps (move_ball k) now false) as (-> & -> & _).
    rewrite GameFacts.ball_move_ball, timers_move_ball, Ff, Tk, At. split; reflexivity.
Qed.

Lemma bounce_tick_witness :
  current (state bounce_state) = st_play /\
  collided_name (at_collision bounce_state) = Some player1_name /\
  Ball.dx (ball (before_scoring bounce_state)) = Fin (-1) /\
  Sprite.speed (Ball.base (ball (before_scoring bounce_state)))
  = (Sprite.speed (Ball.base (ball bounce_state)) + Fin 1)%js.
Proof.
  assert (H1 : current (state bounce_state) = st_play) by (vm_compute; reflexivity).
  assert (H2 : collided_name (at_collision bounce_state) = Some player1_name)
    by (vm_compute; reflexivity).
  split; [exact H1|]. split; [exact H2|].
  destruct (proj1 (bounce_tick bounce_state (Fin 40) H1 H2)) as (A & B & _).
  split; [exact A|exact B].
Defined.

End ControlFacts.
